(** * Target derivation pipeline of [ml/targets/create-targets.py]

    A shallow embedding of the name canonicaliser, the league resolver, the
    causal head-to-head aggregator and the merge / derived-target stage,
    followed by the properties the specification states about them.

    Conventions of the embedding:
    - a Python [str] is a [string]; its characters are read as the code points
      U+0000..U+00FF (Basic Latin and Latin-1 Supplement), which is the range
      the tables of the source ([REPLACEMENTS], [STOP_WORDS],
      [LEAGUE_NAME_MAP]) live in.  The built-in methods [strip], [lower],
      [isalnum], [isspace], [split], [join] and [replace] are written out for
      that range in module [PyStr];
    - a [pd.Timestamp] is a number of seconds since the epoch ([Z]); a
      calendar date is a number of days since the epoch;
    - a Python [int] is a [Z]; a float that may be NaN and holds a count is an
      [option Z]; the percentages of a snapshot are exact rationals ([Q]);
    - a [dict] is a [gmap]; a data frame is the list of its rows. *)

From Stdlib Require Import ZArith QArith Qfield Ascii String Lia.
From stdpp Require Import base option list gmap strings sorting pretty.

Local Open Scope Z_scope.

(** ** Python string built-ins on the Latin-1 range *)

Module PyStr.

Definition code (c : ascii) : N := N_of_ascii c.

Definition between (lo hi : N) (c : ascii) : bool :=
  ((lo <=? code c) && (code c <=? hi))%N.

(** [str.isspace] : TAB..CR, FS..US, SPACE, NEL and NBSP. *)
Definition isspace (c : ascii) : bool :=
  between 9 13 c || between 28 32 c || (code c =? 133)%N || (code c =? 160)%N.

(** [str.isalnum] : digits, letters, the ordinal indicators, the micro
    sign, superscript digits and vulgar fractions. *)
Definition isalnum (c : ascii) : bool :=
  between 48 57 c || between 65 90 c || between 97 122 c
  || (code c =? 170)%N || between 178 179 c || (code c =? 181)%N
  || between 185 186 c || between 188 190 c
  || between 192 214 c || between 216 246 c || between 248 255 c.

(** [str.lower] on one character: A-Z and the capital letters of Latin-1
    move up by 32; every other character is kept. *)
Definition lower_ch (c : ascii) : ascii :=
  if between 65 90 c || between 192 214 c || between 216 222 c
  then ascii_of_N (code c + 32) else c.

Definition lower (s : list ascii) : list ascii := map lower_ch s.

Fixpoint lstrip (s : list ascii) : list ascii :=
  match s with
  | [] => []
  | c :: s' => if isspace c then lstrip s' else s
  end.

Definition rstrip (s : list ascii) : list ascii := rev (lstrip (rev s)).

Definition strip (s : list ascii) : list ascii := rstrip (lstrip s).

(** [value.replace(src, dst)] for one-character [src] and [dst]. *)
Definition replace (src dst : ascii) (s : list ascii) : list ascii :=
  map (fun c => if Ascii.eqb c src then dst else c) s.

(** [str.split()] without argument: the maximal runs of characters that
    are not white space. *)
Fixpoint split (s : list ascii) : list (list ascii) :=
  match s with
  | [] => []
  | c :: s' =>
      if isspace c then split s'
      else match s' with
           | [] => [[c]]
           | d :: _ =>
               if isspace d then [c] :: split s'
               else match split s' with
                    | w :: ws => (c :: w) :: ws
                    | [] => [[c]]
                    end
           end
  end.

(** [sep.join(parts)] *)
Fixpoint join (sep : list ascii) (parts : list (list ascii)) : list ascii :=
  match parts with
  | [] => []
  | [p] => p
  | p :: ps => p ++ sep ++ join sep ps
  end.

End PyStr.

(** ** Name canonicaliser *)

Definition STOP_WORDS : gset string :=
  list_to_set
    ["fc"; "cf"; "sc"; "afc"; "ac"; "ss"; "cd"; "ud"; "de"; "al"; "the"]%string.

(** The accented keys are the code points U+00E0..U+00FC of the source
    table, in the order the [dict] lists them. *)
Definition REPLACEMENTS : list (ascii * ascii) :=
  [ ("225", "a"); ("224", "a"); ("226", "a"); ("227", "a"); ("228", "a");
    ("233", "e"); ("232", "e"); ("234", "e"); ("235", "e");
    ("237", "i"); ("236", "i"); ("238", "i"); ("239", "i");
    ("243", "o"); ("242", "o"); ("244", "o"); ("245", "o"); ("246", "o");
    ("250", "u"); ("249", "u"); ("251", "u"); ("252", "u");
    ("231", "c"); ("241", "n") ]%char.

Definition apply_replacements (value : list ascii) : list ascii :=
  fold_left (fun v '(src, dst) => PyStr.replace src dst v) REPLACEMENTS value.

Definition keep_alnum_space (ch : ascii) : ascii :=
  if PyStr.isalnum ch || PyStr.isspace ch then ch else " "%char.

Definition is_kept_part (part : list ascii) : bool :=
  negb (bool_decide (part = []))
  && negb (bool_decide (string_of_list_ascii part ∈ STOP_WORDS)).

Definition normalize_chars (raw : list ascii) : list ascii :=
  let value := PyStr.lower (PyStr.strip raw) in
  let value := apply_replacements value in
  let value := map keep_alnum_space value in
  let parts := List.filter is_kept_part (PyStr.split value) in
  PyStr.strip (PyStr.join [" "%char] parts).

Definition normalize_team_name (raw : string) : string :=
  string_of_list_ascii (normalize_chars (list_ascii_of_string raw)).

(** ** League resolver *)

Definition LEAGUE_NAME_MAP : gmap string Z :=
  list_to_map
    [ ("premier league", 39); ("english premier league", 39); ("epl", 39);
      ("e0", 39);
      ("la liga", 140); ("spanish la liga", 140); ("primera division", 140);
      ("primera divisi" +:+ String "243" "n", 140); ("sp1", 140);
      ("serie a", 135); ("italian serie a", 135); ("i1", 135);
      ("bundesliga", 78); ("german bundesliga", 78); ("d1", 78);
      ("ligue 1", 61); ("french ligue 1", 61); ("f1", 61);
      ("primeira liga", 94); ("liga portugal", 94);
      ("portuguese league", 94); ("p1", 94);
      ("eredivisie", 88); ("dutch eredivisie", 88); ("n1", 88) ]%string.

Definition resolve_league_id (raw : string) : option Z :=
  let key :=
    string_of_list_ascii
      (PyStr.lower (PyStr.strip (list_ascii_of_string raw))) in
  LEAGUE_NAME_MAP !! key.

(** ** Head-to-head aggregator *)

Record H2HMatch := mkH2HMatch {
  date : Z;
  home_team : string;
  away_team : string;
  home_goals : Z;
  away_goals : Z
}.

(** ["__".join(sorted([home_team, away_team]))] *)
Definition build_pair_key (home_team away_team : string) : string :=
  if String.ltb away_team home_team
  then away_team +:+ "__" +:+ home_team
  else home_team +:+ "__" +:+ away_team.

(** The loop of [bisect.bisect_left]: [fuel] bounds the number of turns and
    is chosen as the length of the list, which the loop never needs in full
    ([bisect_left_spec] below shows the answer is the one of the unbounded
    loop). *)
Fixpoint bisect_loop (fuel : nat) (a : list Z) (x : Z) (lo hi : nat) : nat :=
  match fuel with
  | O => lo
  | S fuel' =>
      if decide (lo < hi)%nat then
        let mid := ((lo + hi) / 2)%nat in
        match a !! mid with
        | Some v =>
            if decide (v < x) then bisect_loop fuel' a x (mid + 1)%nat hi
            else bisect_loop fuel' a x lo mid
        | None => lo
        end
      else lo
  end.

Definition bisect_left (a : list Z) (x : Z) : nat :=
  bisect_loop (length a) a x 0%nat (length a).

(** [s[k:]] for a Python slice start [k] of either sign. *)
Definition slice_from {A} (k : Z) (s : list A) : list A :=
  let n := Z.of_nat (length s) in
  let start := if decide (k < 0) then Z.max (n + k) 0 else Z.min k n in
  drop (Z.to_nat start) s.

Record H2HStats := mkH2HStats {
  matches : Z;
  home_win_pct : option Q;
  away_win_pct : option Q;
  draw_pct : option Q;
  avg_goals : option Q;
  btts_pct : option Q;
  over_2_5_pct : option Q
}.

Definition empty_stats : H2HStats :=
  {| matches := 0; home_win_pct := None; away_win_pct := None;
     draw_pct := None; avg_goals := None; btts_pct := None;
     over_2_5_pct := None |}.

Definition is_venue_match (current_home current_away : string)
    (m : H2HMatch) : bool :=
  bool_decide (home_team m = current_home)
  && bool_decide (away_team m = current_away).

(** The backward scan [for idx in range(cutoff - 1, -1, -1)] of the venue
    variant; [n] is [idx + 1]. *)
Fixpoint venue_scan (history : list H2HMatch)
    (current_home current_away : string) (max_matches : Z)
    (n : nat) (selected : list H2HMatch) : list H2HMatch :=
  match n with
  | O => selected
  | S idx =>
      match history !! idx with
      | Some m =>
          if is_venue_match current_home current_away m then
            let selected' := selected ++ [m] in
            if decide (Z.of_nat (length selected') >= max_matches)
            then selected'
            else venue_scan history current_home current_away max_matches
                   idx selected'
          else venue_scan history current_home current_away max_matches
                 idx selected
      | None => selected
      end
  end.

(** The list [selected] once the cutoff is known to be positive. *)
Definition select_matches (history : list H2HMatch)
    (current_home current_away : string) (cutoff : nat)
    (max_matches : Z) (venue_only : bool) : list H2HMatch :=
  if venue_only then
    rev (venue_scan history current_home current_away max_matches cutoff [])
  else slice_from (- max_matches) (take cutoff history).

Record Tally := mkTally {
  home_wins : Z;
  away_wins : Z;
  draws : Z;
  total_goals : Z;
  btts : Z;
  over_2_5 : Z
}.

Definition Qgt_bool (x y : Q) : bool := negb (Qle_bool x y).

(** Goals of a past match seen from the side of the current home team. *)
Definition reorient (current_home : string) (m : H2HMatch) : Z * Z :=
  if bool_decide (home_team m = current_home)
  then (home_goals m, away_goals m)
  else (away_goals m, home_goals m).

(** One turn of [for match in selected]. *)
Definition tally_match (current_home : string) (t : Tally) (m : H2HMatch)
    : Tally :=
  let '(hg, ag) := reorient current_home m in
  let total := hg + ag in
  {| home_wins := if decide (hg > ag) then home_wins t + 1 else home_wins t;
     away_wins :=
       if decide (hg > ag) then away_wins t
       else if decide (ag > hg) then away_wins t + 1 else away_wins t;
     draws :=
       if decide (hg > ag) then draws t
       else if decide (ag > hg) then draws t else draws t + 1;
     total_goals := total_goals t + total;
     btts := if decide (hg > 0 ∧ ag > 0) then btts t + 1 else btts t;
     over_2_5 :=
       if Qgt_bool (inject_Z total) 2.5 then over_2_5 t + 1 else over_2_5 t |}.

Definition tally_all (current_home : string) (selected : list H2HMatch)
    : Tally :=
  fold_left (tally_match current_home) selected (mkTally 0 0 0 0 0 0).

Definition pct (k count : Z) : Q := (inject_Z k / inject_Z count * 100)%Q.

(** The dictionary returned for a list of selected matches. *)
Definition stats_of (current_home : string) (selected : list H2HMatch)
    : H2HStats :=
  match selected with
  | [] => empty_stats
  | _ =>
      let t := tally_all current_home selected in
      let count := Z.of_nat (length selected) in
      {| matches := count;
         home_win_pct := Some (pct (home_wins t) count);
         away_win_pct := Some (pct (away_wins t) count);
         draw_pct := Some (pct (draws t) count);
         avg_goals := Some (inject_Z (total_goals t) / inject_Z count)%Q;
         btts_pct := Some (pct (btts t) count);
         over_2_5_pct := Some (pct (over_2_5 t) count) |}
  end.

Definition compute_h2h_stats (history : list H2HMatch)
    (current_home current_away : string) (current_date : Z)
    (max_matches : Z) (venue_only : bool) : H2HStats :=
  match history with
  | [] => empty_stats
  | _ =>
      let dates := map date history in
      let cutoff := bisect_left dates current_date in
      if decide (cutoff <= 0)%nat then empty_stats
      else
        stats_of current_home
          (select_matches history current_home current_away cutoff
             max_matches venue_only)
  end.

(** The matches that [compute_h2h_stats] aggregates: the list [selected] when
    the function reaches it, and no match on the two early returns. *)
Definition h2h_selected (history : list H2HMatch)
    (current_home current_away : string) (current_date : Z)
    (max_matches : Z) (venue_only : bool) : list H2HMatch :=
  match history with
  | [] => []
  | _ =>
      let cutoff := bisect_left (map date history) current_date in
      if decide (cutoff <= 0)%nat then []
      else select_matches history current_home current_away cutoff
             max_matches venue_only
  end.

(** Seconds since the epoch of midnight of a civil date (proleptic
    Gregorian calendar). *)
Definition days_from_civil (y m d : Z) : Z :=
  let y' := if decide (m <= 2) then y - 1 else y in
  let era := y' / 400 in
  let yoe := y' - era * 400 in
  let mp := (m + 9) mod 12 in
  let doy := (153 * mp + 2) / 5 + d - 1 in
  let doe := yoe * 365 + yoe / 4 - yoe / 100 + doy in
  era * 146097 + doe - 719468.

Definition to_datetime (day : Z) : Z := day * 86400.
Definition day_of (timestamp : Z) : Z := timestamp / 86400.
Definition timestamp_ymd (y m d : Z) : Z := to_datetime (days_from_civil y m d).

Definition scenario_history : list H2HMatch :=
  [ mkH2HMatch (timestamp_ymd 2021 1 1) "TeamA" "TeamB" 2 1;
    mkH2HMatch (timestamp_ymd 2021 6 1) "TeamB" "TeamA" 0 0 ].

(** ** Tables of the pipeline *)

(** A cell of the written table. *)
Inductive cell :=
| VInt (z : Z)
| VRat (q : Q)
| VStr (s : string)
| VDate (day : Z)
| VNull.

Definition Row : Type := list (string * cell).

(** [row[name] = v] : an existing column is overwritten in place, a new one
    is appended. *)
Fixpoint set_col (name : string) (v : cell) (r : Row) : Row :=
  match r with
  | [] => [(name, v)]
  | (n, w) :: r' =>
      if String.eqb n name then (n, v) :: r' else (n, w) :: set_col name v r'
  end.

Fixpoint get_col (name : string) (r : Row) : option cell :=
  match r with
  | [] => None
  | (n, w) :: r' => if String.eqb n name then Some w else get_col name r'
  end.

Definition assign_all (cols : list (string * cell)) (r : Row) : Row :=
  fold_left (fun acc '(n, v) => set_col n v acc) cols r.

Module Raw.
(** A row of the raw historical table, its numeric columns already passed
    through [pd.to_numeric(errors="coerce")]. *)
Record t := mk {
  Division : string;
  MatchDate : Z;
  HomeTeam : string;
  AwayTeam : string;
  FTHome : option Z;
  FTAway : option Z;
  HTHome : option Z;
  HTAway : option Z;
  HomeCorners : option Z;
  AwayCorners : option Z;
  HomeYellow : option Z;
  AwayYellow : option Z;
  HomeRed : option Z;
  AwayRed : option Z
}.
End Raw.

Module Canon.
(** A raw row that survived the league filter, with the columns
    [leagueId], [homeTeam] and [awayTeam] the pipeline adds. *)
Record t := mk {
  row : Raw.t;
  leagueId : Z;
  homeTeam : string;
  awayTeam : string
}.
Definition date (c : t) : Z := Raw.MatchDate (row c).
End Canon.

Module Feature.
(** A row of the feature table: the merge key, the final goals and any
    further columns (named differently from the columns the pipeline
    reads or writes). *)
Record t := mk {
  date : Z;
  leagueId : Z;
  homeTeam : string;
  awayTeam : string;
  homeGoals : option Z;
  awayGoals : option Z;
  extra : Row
}.
End Feature.

(** Lines 243-250 of [main] for one raw row. *)
Definition canonical_row (mappings : gmap string string) (r : Raw.t)
    : option Canon.t :=
  match resolve_league_id (Raw.Division r) with
  | None => None
  | Some lid =>
      Some {| Canon.row := r;
              Canon.leagueId := lid;
              Canon.homeTeam :=
                default (Raw.HomeTeam r)
                  (mappings !! normalize_team_name (Raw.HomeTeam r));
              Canon.awayTeam :=
                default (Raw.AwayTeam r)
                  (mappings !! normalize_team_name (Raw.AwayTeam r)) |}
  end.

Definition canonical_rows (mappings : gmap string string)
    (raw : list Raw.t) : list Canon.t :=
  omap (canonical_row mappings) raw.

(** *** Pairwise history index *)

Definition h2h_match (c : Canon.t) : option H2HMatch :=
  match Raw.FTHome (Canon.row c), Raw.FTAway (Canon.row c) with
  | Some hg, Some ag =>
      Some (mkH2HMatch (Canon.date c) (Canon.homeTeam c) (Canon.awayTeam c)
              hg ag)
  | _, _ => None
  end.

(** [pair_map.setdefault(key, []).append(match)] *)
Definition index_match (pair_map : gmap string (list H2HMatch))
    (m : H2HMatch) : gmap string (list H2HMatch) :=
  let key := build_pair_key (home_team m) (away_team m) in
  <[key := default [] (pair_map !! key) ++ [m]]> pair_map.

Fixpoint insert_by_date (m : H2HMatch) (l : list H2HMatch) : list H2HMatch :=
  match l with
  | [] => [m]
  | x :: l' =>
      if decide (date m <= date x) then m :: l else x :: insert_by_date m l'
  end.

(** [matches.sort(key=lambda m: m.date)], a stable sort. *)
Definition sort_by_date (l : list H2HMatch) : list H2HMatch :=
  foldr insert_by_date [] l.

Definition build_pair_map (rows : list Canon.t)
    : gmap string (list H2HMatch) :=
  sort_by_date <$> fold_left index_match (omap h2h_match rows) ∅.

(** *** Merge *)

Definition merge_key : Type := Z * Z * string * string.

Definition feature_key (f : Feature.t) : merge_key :=
  (Feature.date f, Feature.leagueId f, Feature.homeTeam f, Feature.awayTeam f).

(** The key columns of the projected raw frame; its [date] column is the
    calendar day of the time stamp. *)
Definition outcome_key (o : Canon.t) : merge_key :=
  (day_of (Canon.date o), Canon.leagueId o, Canon.homeTeam o, Canon.awayTeam o).

Inductive MergeError := NotManyToOne.

Definition MergedRow : Type := Feature.t * option Canon.t.

Definition join_left (right : list Canon.t) (f : Feature.t)
    : list MergedRow :=
  match List.filter (fun o => bool_decide (outcome_key o = feature_key f)) right
  with
  | [] => [(f, None)]
  | os => map (fun o => (f, Some o)) os
  end.

(** [features.merge(raw, on=[...], how="left", validate="many_to_one")] :
    the keys of the right frame are checked for uniqueness before any row
    is joined. *)
Definition merge (features : list Feature.t) (right : list Canon.t)
    : MergeError + list MergedRow :=
  if bool_decide (NoDup (map outcome_key right))
  then inr (flat_map (join_left right) features)
  else inl NotManyToOne.

(** *** Derived targets *)

Definition num (x : option Z) : cell :=
  match x with Some z => VInt z | None => VNull end.

Definition rat (x : option Q) : cell :=
  match x with Some q => VRat q | None => VNull end.

Definition text (x : option string) : cell :=
  match x with Some s => VStr s | None => VNull end.

(** [.astype("int")] of a boolean column. *)
Definition flag (b : bool) : cell := VInt (if b then 1 else 0).

(** Arithmetic and comparisons of columns holding NaN: a sum with NaN is
    NaN, a comparison with NaN is false. *)
Definition add_nan (x y : option Z) : option Z :=
  match x, y with Some a, Some b => Some (a + b) | _, _ => None end.

Definition sub_nan (x y : option Z) : option Z :=
  match x, y with Some a, Some b => Some (a - b) | _, _ => None end.

Definition gt_nan (x : option Z) (line : Q) : bool :=
  match x with Some a => Qgt_bool (inject_Z a) line | None => false end.

Definition eq_nan (x : option Z) (k : Z) : bool :=
  match x with Some a => bool_decide (a = k) | None => false end.

Definition between_nan (x : option Z) (low high : Z) : bool :=
  match x with
  | Some a => bool_decide (low <= a) && bool_decide (a <= high)
  | None => false
  end.

(** The lines of the over/under columns with [str(line).replace(".", "_")]. *)
Definition ou_lines : list (Q * string) :=
  [ (0.5, "0_5"); (1.5, "1_5"); (2.5, "2_5"); (3.5, "3_5"); (4.5, "4_5");
    (5.5, "5_5") ]%Q%string.

Definition total_ranges : list (Z * Z) :=
  [ (1, 2); (1, 3); (1, 4); (1, 5); (1, 6); (2, 3); (2, 4); (2, 5); (2, 6);
    (3, 4); (3, 5); (3, 6); (4, 5); (4, 6); (5, 6) ].

Definition range_name (prefix : string) (low high : Z) : string :=
  prefix +:+ "_range_" +:+ pretty low +:+ "_" +:+ pretty high.

Definition half_result (ht_home ht_away : option Z) : option string :=
  match ht_home, ht_away with
  | Some h, Some a =>
      if decide (h > a) then Some "HOME"%string
      else if decide (h < a) then Some "AWAY"%string
      else Some "DRAW"%string
  | _, _ => None
  end.

Definition outcome_field (field : Raw.t -> option Z) (o : option Canon.t)
    : option Z :=
  match o with Some c => field (Canon.row c) | None => None end.

Definition totalGoals (m : MergedRow) : option Z :=
  add_nan (Feature.homeGoals m.1) (Feature.awayGoals m.1).

Definition fh_goals_total (m : MergedRow) : option Z :=
  add_nan (outcome_field Raw.HTHome m.2) (outcome_field Raw.HTAway m.2).

Definition home_cards (m : MergedRow) : option Z :=
  add_nan (outcome_field Raw.HomeYellow m.2) (outcome_field Raw.HomeRed m.2).

Definition away_cards (m : MergedRow) : option Z :=
  add_nan (outcome_field Raw.AwayYellow m.2) (outcome_field Raw.AwayRed m.2).

Definition total_cards (m : MergedRow) : option Z :=
  add_nan (home_cards m) (away_cards m).

Definition total_corners (m : MergedRow) : option Z :=
  add_nan (outcome_field Raw.HomeCorners m.2)
          (outcome_field Raw.AwayCorners m.2).

(** The columns lines 314-375 of [main] assign, in the order of the
    assignments. *)
Definition target_columns (m : MergedRow) : list (string * cell) :=
  let homeGoals := Feature.homeGoals m.1 in
  let awayGoals := Feature.awayGoals m.1 in
  [ ("totalGoals", num (totalGoals m));
    ("btts_yes", flag (gt_nan homeGoals 0 && gt_nan awayGoals 0)) ]%string
  ++ map (fun '(line, suffix) =>
            ("ou_over_" +:+ suffix, flag (gt_nan (totalGoals m) line)))
         ou_lines
  ++ flat_map (fun '(low, high) =>
       [ (range_name "total" low high,
          flag (between_nan (totalGoals m) low high));
         (range_name "home" low high, flag (between_nan homeGoals low high));
         (range_name "away" low high, flag (between_nan awayGoals low high)) ])
       total_ranges
  ++ [ ("clean_sheet_home", flag (eq_nan awayGoals 0));
       ("clean_sheet_away", flag (eq_nan homeGoals 0));
       ("fh_goals_total", num (fh_goals_total m));
       ("sh_goals_total", num (sub_nan (totalGoals m) (fh_goals_total m)));
       ("fh_result",
        text (half_result (outcome_field Raw.HTHome m.2)
                          (outcome_field Raw.HTAway m.2)));
       ("home_cards", num (home_cards m));
       ("away_cards", num (away_cards m));
       ("total_cards", num (total_cards m));
       ("home_corners", num (outcome_field Raw.HomeCorners m.2));
       ("away_corners", num (outcome_field Raw.AwayCorners m.2));
       ("total_corners", num (total_corners m)) ]%string.

Definition h2h_columns (prefix : string) (s : H2HStats)
    : list (string * cell) :=
  [ (prefix +:+ "matches", VInt (matches s));
    (prefix +:+ "home_win_pct", rat (home_win_pct s));
    (prefix +:+ "away_win_pct", rat (away_win_pct s));
    (prefix +:+ "draw_pct", rat (draw_pct s));
    (prefix +:+ "avg_goals", rat (avg_goals s));
    (prefix +:+ "btts_pct", rat (btts_pct s));
    (prefix +:+ "over_2_5_pct", rat (over_2_5_pct s)) ]%string.

(** The two snapshots of one merged row (lines 379-400). *)
Definition h2h_of_row (pair_map : gmap string (list H2HMatch))
    (venue_only : bool) (m : MergedRow) : H2HStats :=
  let current_date := to_datetime (Feature.date m.1) in
  let key := build_pair_key (Feature.homeTeam m.1) (Feature.awayTeam m.1) in
  compute_h2h_stats (default [] (pair_map !! key))
    (Feature.homeTeam m.1) (Feature.awayTeam m.1) current_date 5 venue_only.

(** A row of the frame the merge returns: the columns of the feature table
    followed by the columns of the raw frame that are not part of the key. *)
Definition feature_columns (f : Feature.t) : Row :=
  [ ("date", VDate (Feature.date f));
    ("leagueId", VInt (Feature.leagueId f));
    ("homeTeam", VStr (Feature.homeTeam f));
    ("awayTeam", VStr (Feature.awayTeam f));
    ("homeGoals", num (Feature.homeGoals f));
    ("awayGoals", num (Feature.awayGoals f)) ]%string
  ++ Feature.extra f.

Definition outcome_columns (o : option Canon.t) : Row :=
  [ ("HTHome", num (outcome_field Raw.HTHome o));
    ("HTAway", num (outcome_field Raw.HTAway o));
    ("HomeCorners", num (outcome_field Raw.HomeCorners o));
    ("AwayCorners", num (outcome_field Raw.AwayCorners o));
    ("HomeYellow", num (outcome_field Raw.HomeYellow o));
    ("AwayYellow", num (outcome_field Raw.AwayYellow o));
    ("HomeRed", num (outcome_field Raw.HomeRed o));
    ("AwayRed", num (outcome_field Raw.AwayRed o)) ]%string.

Definition merged_columns (m : MergedRow) : Row :=
  feature_columns m.1 ++ outcome_columns m.2.

(** Every column [main] assigns to the merged frame. *)
Definition assigned_columns (pair_map : gmap string (list H2HMatch))
    (m : MergedRow) : list (string * cell) :=
  target_columns m
  ++ h2h_columns "h2h_overall_" (h2h_of_row pair_map false m)
  ++ h2h_columns "h2h_venue_" (h2h_of_row pair_map true m).

Definition output_row (pair_map : gmap string (list H2HMatch))
    (m : MergedRow) : Row :=
  assign_all (assigned_columns pair_map m) (merged_columns m).

(** What [main] prints. *)
Inductive Printed :=
| TargetsWrittenTo (out_path : string)
| Coverage (fh_goals_total total_cards total_corners : nat).

Definition count_notna (column : MergedRow -> option Z)
    (merged : list MergedRow) : nat :=
  length (List.filter (fun m => bool_decide (is_Some (column m))) merged).

Record Run := mkRun {
  written : list Row;
  printed : list Printed
}.

(** [main], from the tables it reads to the table it writes and the lines
    it prints, or the error that ends it before anything is written. *)
Definition main (features : list Feature.t) (raw : list Raw.t)
    (mappings : gmap string string) (out_path : string)
    : MergeError + Run :=
  let raw := canonical_rows mappings raw in
  let pair_map := build_pair_map raw in
  match merge features raw with
  | inl e => inl e
  | inr merged =>
      inr {| written := map (output_row pair_map) merged;
             printed :=
               [ TargetsWrittenTo out_path;
                 Coverage (count_notna fh_goals_total merged)
                          (count_notna total_cards merged)
                          (count_notna total_corners merged) ] |}
  end.

(** The raw rows the league filter removes. *)
Definition excluded_rows (raw : list Raw.t) : nat :=
  length (List.filter
            (fun r => bool_decide (resolve_league_id (Raw.Division r) = None))
            raw).

(** ** Notions the properties are stated with *)

(** The effect of the whole [REPLACEMENTS] loop on one character. *)
Definition unaccent_ch (c : ascii) : ascii :=
  fold_left (fun ch '(src, dst) => if Ascii.eqb ch src then dst else ch)
    REPLACEMENTS c.

(** What the three character-wise steps of [normalize_team_name] make of one
    character. *)
Definition canon_ch (c : ascii) : ascii :=
  keep_alnum_space (unaccent_ch (PyStr.lower_ch c)).

(** The letter under the accent mark of a Latin-1 letter (its canonical
    decomposition); other characters are their own base. *)
Definition base_letter (c : ascii) : ascii :=
  if PyStr.between 192 197 c then "A"%char
  else if (PyStr.code c =? 199)%N then "C"%char
  else if PyStr.between 200 203 c then "E"%char
  else if PyStr.between 204 207 c then "I"%char
  else if (PyStr.code c =? 209)%N then "N"%char
  else if PyStr.between 210 214 c then "O"%char
  else if PyStr.between 217 220 c then "U"%char
  else if (PyStr.code c =? 221)%N then "Y"%char
  else if PyStr.between 224 229 c then "a"%char
  else if (PyStr.code c =? 231)%N then "c"%char
  else if PyStr.between 232 235 c then "e"%char
  else if PyStr.between 236 239 c then "i"%char
  else if (PyStr.code c =? 241)%N then "n"%char
  else if PyStr.between 242 246 c then "o"%char
  else if PyStr.between 249 252 c then "u"%char
  else if (PyStr.code c =? 253)%N || (PyStr.code c =? 255)%N then "y"%char
  else c.

(** The same for the accented letters [REPLACEMENTS] lists, in either
    case: grave, acute, circumflex, tilde and diaeresis on a and o, the
    first three and the diaeresis on e, i and u, c cedilla and n tilde. *)
Definition listed_base_letter (c : ascii) : ascii :=
  if PyStr.between 192 196 c then "A"%char
  else if (PyStr.code c =? 199)%N then "C"%char
  else if PyStr.between 200 203 c then "E"%char
  else if PyStr.between 204 207 c then "I"%char
  else if (PyStr.code c =? 209)%N then "N"%char
  else if PyStr.between 210 214 c then "O"%char
  else if PyStr.between 217 220 c then "U"%char
  else if PyStr.between 224 228 c then "a"%char
  else if (PyStr.code c =? 231)%N then "c"%char
  else if PyStr.between 232 235 c then "e"%char
  else if PyStr.between 236 239 c then "i"%char
  else if (PyStr.code c =? 241)%N then "n"%char
  else if PyStr.between 242 246 c then "o"%char
  else if PyStr.between 249 252 c then "u"%char
  else c.

(** Two names differ only by letter case or accent marks when they have
    the same length and, position by position, the same base letter up to
    case. *)
Definition same_letter (base : ascii -> ascii) (c d : ascii) : Prop :=
  PyStr.lower_ch (base c) = PyStr.lower_ch (base d).

Definition differ_only_by_case_or_accent (x y : string) : Prop :=
  Forall2 (same_letter base_letter)
    (list_ascii_of_string x) (list_ascii_of_string y).

Definition differ_only_by_case_or_listed_accent (x y : string) : Prop :=
  Forall2 (same_letter listed_base_letter)
    (list_ascii_of_string x) (list_ascii_of_string y).

Definition sao_paulo_plain : string := "Sao Paulo".

(** "São Paulo", with U+00E3 for the second letter. *)
Definition sao_paulo_tilde : string :=
  String "S" (String "227" (String "o" " Paulo")).

(** An optional rational that is present and equal to [q]. *)
Definition is_value (x : option Q) (q : Q) : Prop :=
  match x with Some v => (v == q)%Q | None => False end.

(** The label the specification gives the column [result]. *)
Definition result_label (home_goals away_goals : Z) : string :=
  if decide (home_goals > away_goals) then "HOME"
  else if decide (away_goals > home_goals) then "AWAY"
  else "DRAW".

Definition notnull (c : option cell) : bool :=
  match c with
  | Some VNull | None => false
  | Some _ => true
  end.

Definition count_notnull (name : string) (rows : list Row) : nat :=
  length (List.filter (fun r => notnull (get_col name r)) rows).

Definition league_resolved (r : Raw.t) : bool :=
  bool_decide (is_Some (resolve_league_id (Raw.Division r))).

(** A part as [str.split()] returns them: not empty and free of white
    space. *)
Definition word (w : list ascii) : Prop :=
  w ≠ [] ∧ Forall (fun c => PyStr.isspace c = false) w.

(** A string that [str.strip()] leaves alone: empty, or with a first and a
    last character that are not white space. *)
Definition tight (s : list ascii) : Prop :=
  s = [] ∨
  ((∃ c s', s = c :: s' ∧ PyStr.isspace c = false) ∧
   (∃ s' c, s = s' ++ [c] ∧ PyStr.isspace c = false)).

(** A small run of the pipeline: one raw row of a known league, one of an
    unknown league, and two fixtures of the same pair of teams. *)
Definition demo_raw_row : Raw.t :=
  Raw.mk "E0" (timestamp_ymd 2021 1 1 + 54000) "Arsenal FC" "Chelsea"
    (Some 2) (Some 1) (Some 1) (Some 0) (Some 5) (Some 3)
    (Some 1) (Some 2) (Some 0) (Some 0).

Definition demo_unknown_league_row : Raw.t :=
  Raw.mk "Z9" (timestamp_ymd 2021 2 1) "Arsenal FC" "Chelsea"
    (Some 0) (Some 0) None None None None None None None None.

Definition demo_mappings : gmap string string :=
  {[ "arsenal"%string := "Arsenal"%string ]}.

Definition demo_features : list Feature.t :=
  [ Feature.mk (days_from_civil 2021 1 1) 39 "Arsenal" "Chelsea"
      (Some 2) (Some 1) [("season"%string, VInt 2020)];
    Feature.mk (days_from_civil 2021 3 1) 39 "Chelsea" "Arsenal"
      (Some 0) (Some 0) [("season"%string, VInt 2020)] ].

Definition run_or_empty (r : MergeError + Run) : Run :=
  match r with inr run => run | inl _ => mkRun [] [] end.

Definition demo_run : Run :=
  run_or_empty (main demo_features [demo_raw_row] demo_mappings "out.csv").

(** What the merge promises of a merged row: it carries the one row of
    the right frame with its key, or no such row exists and every outcome
    field is null. *)
Definition joined_right (right : list Canon.t) (m : MergedRow) : Prop :=
  match m.2 with
  | Some o => o ∈ right ∧ outcome_key o = feature_key m.1
  | None => (∀ o, o ∈ right → outcome_key o ≠ feature_key m.1) ∧
            ∀ field, outcome_field field m.2 = None
  end.

(** ** Notions of the further properties *)

(** The key under which [main] files a match. *)
Definition pair_key_of (m : H2HMatch) : string :=
  build_pair_key (home_team m) (away_team m).

(** The matches of a list filed under [key], in the order of the list. *)
Definition matches_of_key (key : string) (ms : list H2HMatch)
    : list H2HMatch :=
  List.filter (fun m => bool_decide (pair_key_of m = key)) ms.

(** The matches of a list played at [d], in the order of the list. *)
Definition matches_dated (d : Z) (ms : list H2HMatch) : list H2HMatch :=
  List.filter (fun m => bool_decide (date m = d)) ms.

(** The matches [main] aggregates for one merged row and one variant. *)
Definition h2h_selected_of_row (pair_map : gmap string (list H2HMatch))
    (venue_only : bool) (m : MergedRow) : list H2HMatch :=
  h2h_selected
    (default [] (pair_map !!
                   build_pair_key (Feature.homeTeam m.1)
                                  (Feature.awayTeam m.1)))
    (Feature.homeTeam m.1) (Feature.awayTeam m.1)
    (to_datetime (Feature.date m.1)) 5 venue_only.

(** A string of white space only. *)
Definition blank (s : string) : Prop :=
  Forall (fun c => PyStr.isspace c = true) (list_ascii_of_string s).

(** Two strings that differ only by the case of their letters. *)
Definition same_up_to_case (x y : string) : Prop :=
  Forall2 (fun c d => PyStr.lower_ch c = PyStr.lower_ch d)
    (list_ascii_of_string x) (list_ascii_of_string y).

(** A part of a normalised name: not empty, made of letters and digits
    that are neither capital nor in [REPLACEMENTS], and no stop word. *)
Definition clean_part (w : list ascii) : Prop :=
  w ≠ [] ∧
  Forall (fun c => PyStr.isalnum c = true ∧ PyStr.lower_ch c = c ∧
                   unaccent_ch c = c) w ∧
  string_of_list_ascii w ∉ STOP_WORDS.

(** The names of the columns [main] assigns; they do not depend on the
    row. *)
Definition assigned_names : list string :=
  map fst (assigned_columns ∅ (Feature.mk 0 0 "" "" None None [], None)).

(** The goal markets that are flags: both teams to score, the six
    over/under lines and the fifteen ranges of the total. *)
Definition total_goal_flags : list string :=
  ["btts_yes"%string]
  ++ map (fun '(_, suffix) => "ou_over_" +:+ suffix) ou_lines
  ++ map (fun '(low, high) => range_name "total" low high) total_ranges.

Definition is_zero_flag (c : option cell) : bool :=
  match c with Some (VInt 0) => true | _ => false end.

(** ** Training stage ([ml/models/train-markets.py]) *)

Module Train.

Inductive market_type := multiclass | binary | regression.

(** [dict[key] = value] on a dictionary kept in insertion order. *)
Fixpoint dict_set {V} (key : string) (value : V) (d : list (string * V))
    : list (string * V) :=
  match d with
  | [] => [(key, value)]
  | (k, v) :: d' =>
      if String.eqb k key then (k, value) :: d'
      else (k, v) :: dict_set key value d'
  end.

(** The module-level dictionary, each market with its target column and
    type. *)
Definition MARKETS : list (string * (string * market_type)) :=
  [ ("1x2", ("result", multiclass));
    ("btts", ("btts_yes", binary));
    ("ou_0_5", ("ou_over_0_5", binary));
    ("ou_1_5", ("ou_over_1_5", binary));
    ("ou_2_5", ("ou_over_2_5", binary));
    ("ou_3_5", ("ou_over_3_5", binary));
    ("ou_4_5", ("ou_over_4_5", binary));
    ("ou_5_5", ("ou_over_5_5", binary));
    ("fh_1x2", ("fh_result", multiclass));
    ("fh_goals", ("fh_goals_total", regression));
    ("sh_goals", ("sh_goals_total", regression));
    ("clean_sheet_home", ("clean_sheet_home", binary));
    ("clean_sheet_away", ("clean_sheet_away", binary));
    ("total_cards", ("total_cards", regression));
    ("home_cards", ("home_cards", regression));
    ("away_cards", ("away_cards", regression));
    ("total_corners", ("total_corners", regression));
    ("home_corners", ("home_corners", regression));
    ("away_corners", ("away_corners", regression)) ]%string.

Definition ranges : list (Z * Z) :=
  [ (1, 2); (1, 3); (1, 4); (1, 5); (1, 6); (2, 3); (2, 4); (2, 5); (2, 6);
    (3, 4); (3, 5); (3, 6); (4, 5); (4, 6); (5, 6) ].

(** [add_range_markets], on the dictionary it updates. *)
Definition add_range_markets (markets : list (string * (string * market_type)))
    : list (string * (string * market_type)) :=
  fold_left
    (fun d '(low, high) =>
       let d := dict_set (range_name "total" low high)
                  (range_name "total" low high, binary) d in
       let d := dict_set (range_name "home" low high)
                  (range_name "home" low high, binary) d in
       dict_set (range_name "away" low high)
         (range_name "away" low high, binary) d)
    ranges markets.

(** [{config["target"] for config in MARKETS.values()}], in the order of
    the dictionary. *)
Definition target_columns_of (markets : list (string * (string * market_type)))
    : list string :=
  map (fun '(_, (target, _)) => target) markets.

Definition drop_cols : list string :=
  [ "homeGoals"; "awayGoals"; "totalGoals"; "HTHome"; "HTAway";
    "HomeCorners"; "AwayCorners"; "HomeYellow"; "AwayYellow"; "HomeRed";
    "AwayRed"; "fh_goals_total"; "sh_goals_total"; "home_cards";
    "away_cards"; "total_cards"; "home_corners"; "away_corners";
    "total_corners" ]%string.

Definition has_label_prefix (col : string) : bool :=
  String.prefix "ou_over_" col || String.prefix "total_range_" col
  || String.prefix "home_range_" col || String.prefix "away_range_" col
  || String.prefix "clean_sheet_" col.

(** [numeric_df.drop(columns=[col])] on the column names. *)
Definition drop_column (col : string) (columns : list string) : list string :=
  List.filter (fun c => negb (String.eqb c col)) columns.

(** [prepare_features] on the columns of the frame: a column is its name
    and whether its dtype is numeric; the result is the names of the
    columns of the frame returned.  [target_columns] is the set in the
    order [sorted] lists it. *)
Definition prepare_features (df : list (string * bool))
    (target_columns : list string) : list string :=
  let numeric_df := map fst (List.filter snd df) in
  let drop_cols := drop_cols ++ target_columns in
  let numeric_df :=
    fold_left
      (fun columns col =>
         if bool_decide (col ∈ columns) then drop_column col columns
         else columns)
      drop_cols numeric_df in
  fold_left
    (fun columns col =>
       if has_label_prefix col then drop_column col columns else columns)
    numeric_df numeric_df.

(** [split_by_season] on the seasons of the rows. *)
Definition split_by_season {row} (season : row -> Z) (df : list row)
    (train_end val_season test_start : Z)
    : list row * list row * list row :=
  (List.filter (fun r => bool_decide (season r <= train_end)) df,
   List.filter (fun r => bool_decide (season r = val_season)) df,
   List.filter (fun r => bool_decide (season r >= test_start)) df).

End Train.

(** The columns [main] of create-targets writes besides the feature
    columns it is given: the final goals, the outcome columns of the raw
    frame and the columns it assigns. *)
Definition outcome_and_target_names : list string :=
  ["homeGoals"; "awayGoals"]%string
  ++ map fst (outcome_columns None) ++ assigned_names.

(** ** Model export ([ml/models/export-to-json.py]) *)

Module ExportJson.

(** A value of the dumped model that is not a dictionary. *)
Inductive scalar :=
| SInt (z : Z)
| SNum (q : Q)
| SBool (b : bool)
| SStr (s : string).

(** A node of [tree_structure] as [dump_model] returns it: the entries of
    the dictionary other than the two children, and the children.  A child
    is absent ([None]), null ([Some None]) or a node. *)
Inductive node :=
| Node (fields : list (string * scalar))
       (left_child right_child : option (option node)).

Fixpoint lookup_field (key : string) (fields : list (string * scalar))
    : option scalar :=
  match fields with
  | [] => None
  | (k, v) :: fields' =>
      if String.eqb k key then Some v else lookup_field key fields'
  end.

(** [if key in node: minified[key] = node[key]] *)
Definition keep (key : string) (fields : list (string * scalar))
    : list (string * scalar) :=
  match lookup_field key fields with
  | Some v => [(key, v)]
  | None => []
  end.

Fixpoint minify_node (n : node) : node :=
  match n with
  | Node fields left_child right_child =>
      match lookup_field "leaf_value" fields with
      | Some v => Node [("leaf_value"%string, v)] None None
      | None =>
          Node (keep "split_feature" fields ++ keep "threshold" fields
                ++ keep "default_left" fields)
               (match left_child with
                | Some (Some c) => Some (Some (minify_node c))
                | Some None => Some None
                | None => None
                end)
               (match right_child with
                | Some (Some c) => Some (Some (minify_node c))
                | Some None => Some None
                | None => None
                end)
      end
  end.

(** An entry of [tree_info]: its entries other than [tree_structure], and
    the structure (absent, null or a node). *)
Record tree := mkTree {
  tree_fields : list (string * scalar);
  tree_structure : option (option node)
}.

Definition minify_tree (t : tree) : tree :=
  {| tree_fields :=
       [ ("tree_index"%string,
          default (SInt 0) (lookup_field "tree_index" (tree_fields t)));
         ("shrinkage"%string,
          default (SInt 1) (lookup_field "shrinkage" (tree_fields t))) ];
     tree_structure :=
       match tree_structure t with
       | None => Some (Some (minify_node (Node [] None None)))
       | Some None => Some None
       | Some (Some n) => Some (Some (minify_node n))
       end |}.

Definition minify_tree_info (tree_info : list tree) : list tree :=
  map minify_tree tree_info.

(** The keys of a split node that are not children, and of a leaf. *)
Definition KEEP_SPLIT_SCALARS : list string :=
  ["split_feature"; "threshold"; "default_left"]%string.

Definition on_child (P : node -> Prop) (c : option (option node)) : Prop :=
  match c with
  | Some (Some n) => P n
  | _ => True
  end.

(** A tree that holds nothing but what inference reads: a leaf is its
    [leaf_value] alone, a split node has no key outside
    [KEEP_SPLIT_FIELDS], none twice. *)
Fixpoint inference_only (n : node) : Prop :=
  match n with
  | Node fields left_child right_child =>
      match lookup_field "leaf_value" fields with
      | Some _ =>
          map fst fields = ["leaf_value"%string] ∧
          left_child = None ∧ right_child = None
      | None =>
          Forall (fun k => k ∈ KEEP_SPLIT_SCALARS) (map fst fields) ∧
          NoDup (map fst fields) ∧
          on_child inference_only left_child ∧
          on_child inference_only right_child
      end
  end.

(** Induction on nodes through their children. *)
Fixpoint node_induction (P : node -> Prop)
    (step : forall fields l r,
        on_child P l -> on_child P r -> P (Node fields l r))
    (n : node) : P n :=
  match n with
  | Node fields l r =>
      step fields l r
        (match l return on_child P l with
         | Some (Some c) => node_induction P step c
         | _ => I
         end)
        (match r return on_child P r with
         | Some (Some c) => node_induction P step c
         | _ => I
         end)
  end.

End ExportJson.

(** ** Factor weights ([ml/models/extract-weights.py]) *)

Module Weights.

Definition FACTOR_GROUPS : list (string * list string) :=
  [ ("form", ["homeFormScore"; "awayFormScore"; "homePPG10"; "awayPPG10"]);
    ("attackStrength", ["homeGF10"; "awayGF10"]);
    ("defenseStrength", ["homeGA10"; "awayGA10"]);
    ("homeAwayStrength", ["homeHomeFormScore"; "awayAwayFormScore"]);
    ("rest", ["homeDaysSince"; "awayDaysSince"]);
    ("meta", ["season"; "leagueId"]) ]%string.

Fixpoint find_group (feature : string) (groups : list (string * list string))
    : option string :=
  match groups with
  | [] => None
  | (group, members) :: groups' =>
      if bool_decide (feature ∈ members) then Some group
      else find_group feature groups'
  end.

Definition group_feature (feature : string) : string :=
  if String.prefix "h2h_" feature then "h2h"
  else default "other"%string (find_group feature FACTOR_GROUPS).

(** The loop of [extract_model_weights] that sums the importances by
    group; the importances are the split counts of the model, whole
    numbers. *)
Definition group_importances (feature_names : list string)
    (importances : list Z) : gmap string Z :=
  fold_left
    (fun grouped '(feature, importance) =>
       let group := group_feature feature in
       <[group := default 0 (grouped !! group) + importance]> grouped)
    (zip feature_names importances) ∅.

(** The importances of the features of one group, in order. *)
Definition importances_of (group : string) (pairs : list (string * Z))
    : list Z :=
  map snd
    (List.filter (fun p => bool_decide (group_feature p.1 = group)) pairs).

Definition sum_list (l : list Z) : Z := fold_right Z.add 0 l.

End Weights.

(** * Properties *)

(** ** Strings *)

Section PyStrFacts.
Import PyStr.

Local Ltac each_char c := destruct c as [[] [] [] [] [] [] [] []].

Lemma canon_ch_idem c : canon_ch (canon_ch c) = canon_ch c.
Proof. each_char c; vm_compute; reflexivity. Qed.

Lemma canon_ch_space_or_alnum c :
  isspace (canon_ch c) = true ∨ isalnum (canon_ch c) = true.
Proof. each_char c; vm_compute; auto. Qed.

Lemma isspace_lower_ch c : isspace (lower_ch c) = isspace c.
Proof. each_char c; vm_compute; reflexivity. Qed.

Lemma listed_base_letter_canon c :
  lower_ch (listed_base_letter c) = unaccent_ch (lower_ch c).
Proof. each_char c; vm_compute; reflexivity. Qed.

Lemma isspace_listed_base c :
  isspace (lower_ch (listed_base_letter c)) = isspace c.
Proof. each_char c; vm_compute; reflexivity. Qed.

Lemma apply_replacements_map v : apply_replacements v = map unaccent_ch v.
Proof.
  unfold apply_replacements, unaccent_ch.
  generalize REPLACEMENTS as table. intros table. revert v.
  induction table as [|[src dst] table IH]; intros v; simpl.
  - by rewrite map_id.
  - rewrite IH. unfold replace. by rewrite map_map.
Qed.

Lemma normalize_chars_eq raw :
  normalize_chars raw =
  strip (join [" "%char]
           (List.filter is_kept_part (split (map canon_ch (strip raw))))).
Proof.
  unfold normalize_chars, lower. rewrite apply_replacements_map.
  rewrite !map_map. unfold canon_ch. reflexivity.
Qed.

Lemma split_cons c s :
  split (c :: s) =
  if isspace c then split s
  else match s with
       | [] => [[c]]
       | d :: _ =>
           if isspace d then [c] :: split s
           else match split s with
                | w :: ws => (c :: w) :: ws
                | [] => [[c]]
                end
       end.
Proof. reflexivity. Qed.

Lemma strip_tight s : tight s → strip s = s.
Proof.
  intros [-> | [(c & s' & -> & Hc) (s'' & c' & Heq & Hc')]]; [done|].
  unfold strip, rstrip. simpl lstrip. rewrite Hc, Heq.
  rewrite rev_app_distr. simpl. rewrite Hc'. simpl.
  by rewrite rev_involutive.
Qed.

Lemma word_tight w : word w → tight w.
Proof.
  intros [Hne Hall]. right. split.
  - destruct w as [|c w]; [done|]. exists c, w. split; [done|].
    by inversion Hall.
  - destruct (exists_last Hne) as (s' & c & ->). exists s', c.
    split; [done|]. apply Forall_app in Hall as [_ Hc]. by inversion Hc.
Qed.

Lemma join_tight ws : Forall word ws → tight (join [" "%char] ws).
Proof.
  induction 1 as [|w ws Hw Hws IH]; [by left|].
  destruct ws as [|w' ws]; [by apply word_tight|].
  change (join [" "%char] (w :: w' :: ws))
    with (w ++ [" "%char] ++ join [" "%char] (w' :: ws)).
  destruct (word_tight w Hw) as [-> | [(c & s' & -> & Hc) _]];
    [by destruct Hw|].
  destruct IH as [Hnil | [_ (s'' & c' & Heq & Hc')]].
  { exfalso. inversion Hws as [|? ? [Hne _] _]; subst.
    destruct w' as [|d w']; [done|]. destruct ws; simpl in Hnil; done. }
  right. split.
  - by exists c, (s' ++ [" "%char] ++ join [" "%char] (w' :: ws)).
  - exists ((c :: s') ++ [" "%char] ++ s''), c'. split; [|done].
    rewrite Heq. by rewrite <- !app_assoc.
Qed.

Lemma split_word w : word w → split w = [w].
Proof.
  intros [Hne Hall]. induction w as [|c w IH]; [done|].
  inversion Hall as [|? ? Hc Hw]; subst. rewrite split_cons, Hc.
  destruct w as [|d w]; [done|].
  inversion Hw as [|? ? Hd _]; subst. rewrite Hd.
  by rewrite IH.
Qed.

Lemma split_word_sep w s :
  word w → split (w ++ " "%char :: s) = w :: split s.
Proof.
  intros [Hne Hall]. induction w as [|c w IH]; [done|].
  inversion Hall as [|? ? Hc Hw]; subst.
  rewrite <- app_comm_cons, split_cons, Hc.
  destruct w as [|d w]; [done|].
  inversion Hw as [|? ? Hd _]; subst.
  rewrite <- app_comm_cons, Hd. rewrite app_comm_cons.
  by rewrite IH.
Qed.

Lemma split_join ws : Forall word ws → split (join [" "%char] ws) = ws.
Proof.
  induction 1 as [|w ws Hw Hws IH]; [done|].
  destruct ws as [|w' ws]; [by apply split_word|].
  change (join [" "%char] (w :: w' :: ws))
    with (w ++ " "%char :: join [" "%char] (w' :: ws)).
  by rewrite split_word_sep, IH.
Qed.

Lemma split_words (P : ascii → Prop) s :
  Forall P s → Forall (fun w => word w ∧ Forall P w) (split s).
Proof.
  induction s as [|c s IH]; intros HP; [constructor|].
  inversion HP as [|? ? Hc Hs]; subst. specialize (IH Hs).
  rewrite split_cons. destruct (isspace c) eqn:Ec; [done|].
  assert (word [c] ∧ Forall P [c]) as Hone.
  { repeat split; [done| |]; by repeat constructor. }
  destruct s as [|d s]; [by repeat constructor|].
  destruct (isspace d) eqn:Ed; [by constructor|].
  destruct (split (d :: s)) as [|w ws]; [by repeat constructor|].
  inversion IH as [|? ? [[Hne Hw] HPw] Hws]; subst.
  constructor; [|done]. repeat split; [done| |]; by constructor.
Qed.

Lemma map_canon_join ws :
  Forall (Forall (fun c => canon_ch c = c)) ws →
  map canon_ch (join [" "%char] ws) = join [" "%char] ws.
Proof.
  assert (∀ w, Forall (fun c => canon_ch c = c) w → map canon_ch w = w)
    as Hfix.
  { induction 1 as [|c w Hc _ IH]; simpl; [done|]. by rewrite Hc, IH. }
  induction 1 as [|w ws Hw Hws IH]; [done|].
  destruct ws as [|w' ws]; [by apply Hfix|].
  change (join [" "%char] (w :: w' :: ws))
    with (w ++ " "%char :: join [" "%char] (w' :: ws)).
  rewrite map_app, map_cons, IH, (Hfix w Hw).
  change (canon_ch " "%char) with " "%char. reflexivity.
Qed.

Lemma filter_idem {A} (f : A → bool) l :
  List.filter f (List.filter f l) = List.filter f l.
Proof.
  induction l as [|a l IH]; simpl; [done|].
  destruct (f a) eqn:E; simpl; [|done]. by rewrite E, IH.
Qed.

Lemma Forall_filter_list {A} (P : A → Prop) (f : A → bool) l :
  Forall P l → Forall P (List.filter f l).
Proof.
  induction 1 as [|a l Ha _ IH]; simpl; [constructor|].
  destruct (f a); [by constructor|done].
Qed.

(** The parts [normalize_team_name] joins are words made of characters
    the character-wise steps leave alone. *)
Lemma normalize_parts raw :
  Forall (fun w => word w ∧ Forall (fun c => canon_ch c = c) w)
    (List.filter is_kept_part (split (map canon_ch (strip raw)))).
Proof.
  apply Forall_filter_list, split_words.
  apply List.Forall_forall. intros c Hc.
  apply in_map_iff in Hc as (c0 & <- & _).
  apply canon_ch_idem.
Qed.

Lemma normalize_chars_idem raw :
  normalize_chars (normalize_chars raw) = normalize_chars raw.
Proof.
  rewrite (normalize_chars_eq raw).
  set (ws := List.filter is_kept_part (split (map canon_ch (strip raw)))).
  pose proof (normalize_parts raw) as Hws. fold ws in Hws.
  assert (Forall word ws) as Hw.
  { eapply Forall_impl; [exact Hws|]. by intros ? []. }
  assert (Forall (Forall (fun c => canon_ch c = c)) ws) as Hc.
  { eapply Forall_impl; [exact Hws|]. by intros ? []. }
  rewrite (strip_tight (join _ ws)) by by apply join_tight.
  rewrite normalize_chars_eq.
  rewrite (strip_tight (join _ ws)) by by apply join_tight.
  rewrite map_canon_join, split_join by done.
  unfold ws at 1. rewrite filter_idem. fold ws.
  by apply strip_tight, join_tight.
Qed.

Lemma same_letter_listed_space c d :
  same_letter listed_base_letter c d → isspace c = isspace d.
Proof.
  unfold same_letter. intros H.
  by rewrite <- (isspace_listed_base c), <- (isspace_listed_base d), H.
Qed.

Lemma same_letter_listed_canon c d :
  same_letter listed_base_letter c d → canon_ch c = canon_ch d.
Proof.
  unfold same_letter, canon_ch. intros H.
  by rewrite <- !listed_base_letter_canon, H.
Qed.

Lemma Forall2_lstrip l l' :
  Forall2 (same_letter listed_base_letter) l l' →
  Forall2 (same_letter listed_base_letter) (lstrip l) (lstrip l').
Proof.
  induction 1 as [|c d l l' Hcd Hl IH]; simpl; [constructor|].
  rewrite <- (same_letter_listed_space c d Hcd).
  destruct (isspace c); [done|by constructor].
Qed.

Lemma Forall2_rev_list {A} (R : A → A → Prop) l l' :
  Forall2 R l l' → Forall2 R (rev l) (rev l').
Proof.
  induction 1; simpl; [constructor|].
  apply Forall2_app; [done|by repeat constructor].
Qed.

Lemma Forall2_strip l l' :
  Forall2 (same_letter listed_base_letter) l l' →
  Forall2 (same_letter listed_base_letter) (strip l) (strip l').
Proof.
  intros H. unfold strip, rstrip.
  by apply Forall2_rev_list, Forall2_lstrip, Forall2_rev_list, Forall2_lstrip.
Qed.

Lemma normalize_chars_listed l l' :
  Forall2 (same_letter listed_base_letter) l l' →
  normalize_chars l = normalize_chars l'.
Proof.
  intros H. rewrite !normalize_chars_eq.
  apply Forall2_strip in H.
  assert (map canon_ch (strip l) = map canon_ch (strip l')) as ->; [|done].
  induction H as [|c d ? ? Hcd _ IH]; simpl; [done|].
  by rewrite IH, (same_letter_listed_canon c d Hcd).
Qed.

End PyStrFacts.

(** C6. The name canonicaliser is idempotent: normalising a normalised name
    gives the same string. *)
Theorem normalize_team_name_idempotent (x : string) :
  normalize_team_name (normalize_team_name x) = normalize_team_name x.
Proof.
  unfold normalize_team_name.
  by rewrite list_ascii_of_string_of_list_ascii, normalize_chars_idem.
Qed.

(** C7, as the specification states it, fails: Y with an acute accent
    (U+00DD, lower case U+00FD) and the plain letter differ only by an accent
    mark, yet [REPLACEMENTS] has no entry for it and the two names stay
    different. *)
Lemma accent_invariance_fails :
  ¬ (∀ x y : string,
       differ_only_by_case_or_accent x y →
       normalize_team_name x = normalize_team_name y).
Proof.
  intros H.
  specialize (H (String "221" "mir") "Ymir"%string).
  assert (differ_only_by_case_or_accent (String "221" "mir") "Ymir")
    as Hd by (repeat constructor).
  specialize (H Hd). vm_compute in H. discriminate H.
Qed.

(** C7, amended. Names that differ only by letter case, or by an accent
    mark that [REPLACEMENTS] lists, normalise to the same string; "Sao
    Paulo" and "São Paulo" are such a pair. *)
Theorem normalize_team_name_case_accent (x y : string) :
  differ_only_by_case_or_listed_accent x y →
  normalize_team_name x = normalize_team_name y.
Proof.
  unfold differ_only_by_case_or_listed_accent, normalize_team_name.
  intros H. by rewrite (normalize_chars_listed _ _ H).
Qed.

Lemma normalize_team_name_sao_paulo :
  differ_only_by_case_or_listed_accent sao_paulo_plain sao_paulo_tilde ∧
  normalize_team_name sao_paulo_plain = normalize_team_name sao_paulo_tilde.
Proof.
  assert (differ_only_by_case_or_listed_accent sao_paulo_plain sao_paulo_tilde)
    as H by (repeat constructor).
  split; [exact H|].
  exact (normalize_team_name_case_accent sao_paulo_plain sao_paulo_tilde H).
Defined.

(** ** Head-to-head aggregator *)

Section H2HFacts.

Lemma sorted_lookup_le (l : list Z) :
  Sorted Z.le l →
  ∀ i j u v, (i ≤ j)%nat → l !! i = Some u → l !! j = Some v → u ≤ v.
Proof.
  intros Hs. apply Sorted_StronglySorted in Hs; [|intros ? ? ?; lia].
  induction Hs as [|x l Hl IH Hx]; intros i j u v Hij Hi Hj.
  - by rewrite lookup_nil in Hi.
  - destruct i as [|i], j as [|j]; simpl in *; simplify_eq.
    + lia.
    + rewrite List.Forall_forall in Hx. apply Hx.
      apply list_elem_of_In. by eapply list_elem_of_lookup_2.
    + lia.
    + eapply (IH i j); [lia|done..].
Qed.

Lemma bisect_loop_S fuel a x lo hi :
  bisect_loop (S fuel) a x lo hi =
  if decide (lo < hi)%nat then
    match a !! ((lo + hi) / 2)%nat with
    | Some v =>
        if decide (v < x)
        then bisect_loop fuel a x ((lo + hi) / 2 + 1)%nat hi
        else bisect_loop fuel a x lo ((lo + hi) / 2)%nat
    | None => lo
    end
  else lo.
Proof. reflexivity. Qed.

(** The loop keeps its answer between [lo] and [hi]. *)
Lemma bisect_loop_bounds fuel a x lo hi :
  (lo ≤ hi)%nat →
  (lo ≤ bisect_loop fuel a x lo hi ≤ hi)%nat.
Proof.
  revert lo hi. induction fuel as [|fuel IH]; intros lo hi Hle.
  - simpl. lia.
  - rewrite bisect_loop_S.
    destruct (decide (lo < hi)%nat) as [Hlt|]; [|lia].
    assert (lo ≤ (lo + hi) / 2 ∧ (lo + hi) / 2 < hi)%nat as [H1 H2].
    { split.
      - apply Nat.div_le_lower_bound; lia.
      - apply Nat.Div0.div_lt_upper_bound; lia. }
    destruct (a !! ((lo + hi) / 2)%nat) as [v|]; [|lia].
    destruct (decide (v < x)).
    + specialize (IH ((lo + hi) / 2 + 1)%nat hi). lia.
    + specialize (IH lo ((lo + hi) / 2)%nat). lia.
Qed.

(** With enough fuel the loop ends at the first index whose element is
    not below [x]. *)
Lemma bisect_loop_spec fuel a x lo hi :
  Sorted Z.le a →
  (lo ≤ hi ≤ length a)%nat →
  (hi - lo ≤ fuel)%nat →
  (∀ i v, (i < lo)%nat → a !! i = Some v → v < x) →
  (∀ i v, (hi ≤ i)%nat → a !! i = Some v → x ≤ v) →
  (∀ i v, (i < bisect_loop fuel a x lo hi)%nat → a !! i = Some v → v < x) ∧
  (∀ i v, (bisect_loop fuel a x lo hi ≤ i)%nat → a !! i = Some v → x ≤ v).
Proof.
  intros Hs. revert lo hi.
  induction fuel as [|fuel IH]; intros lo hi Hle Hfuel Hlo Hhi.
  - simpl. assert (lo = hi) as -> by lia. auto.
  - rewrite bisect_loop_S.
    destruct (decide (lo < hi)%nat) as [Hlt|Hge].
    2: { assert (lo = hi) as -> by lia. auto. }
    assert (lo ≤ (lo + hi) / 2 ∧ (lo + hi) / 2 < hi)%nat as [H1 H2].
    { split.
      - apply Nat.div_le_lower_bound; lia.
      - apply Nat.Div0.div_lt_upper_bound; lia. }
    set (mid := ((lo + hi) / 2)%nat) in *.
    destruct (a !! mid) as [v|] eqn:Hmid.
    2: { apply lookup_ge_None in Hmid. lia. }
    destruct (decide (v < x)) as [Hv|Hv].
    + apply IH; [lia|lia| |done].
      intros i u Hi Hu.
      pose proof (sorted_lookup_le a Hs i mid u v ltac:(lia) Hu Hmid). lia.
    + apply IH; [lia|lia|done|].
      intros i u Hi Hu.
      pose proof (sorted_lookup_le a Hs mid i v u ltac:(lia) Hmid Hu). lia.
Qed.

Lemma bisect_left_le_length a x : (bisect_left a x ≤ length a)%nat.
Proof.
  unfold bisect_left.
  pose proof (bisect_loop_bounds (length a) a x 0 (length a)). lia.
Qed.

Lemma bisect_left_spec a x :
  Sorted Z.le a →
  (∀ i v, (i < bisect_left a x)%nat → a !! i = Some v → v < x) ∧
  (∀ i v, (bisect_left a x ≤ i)%nat → a !! i = Some v → x ≤ v).
Proof.
  intros Hs. unfold bisect_left. apply bisect_loop_spec; [done|lia|lia| |].
  - intros i v Hi. lia.
  - intros i v Hi Hv. apply lookup_lt_Some in Hv. lia.
Qed.

(** When no element is below [x] the cutoff is 0, sorted or not. *)
Lemma bisect_loop_none_below fuel a x hi :
  (∀ v, v ∈ a → x ≤ v) → bisect_loop fuel a x 0 hi = 0%nat.
Proof.
  intros Hall. revert hi. induction fuel as [|fuel IH]; intros hi.
  - done.
  - rewrite bisect_loop_S.
    destruct (decide (0 < hi)%nat); [|done].
    destruct (a !! ((0 + hi) / 2)%nat) as [v|] eqn:Hmid; [|done].
    apply list_elem_of_lookup_2, Hall in Hmid.
    destruct (decide (v < x)); [lia|]. apply IH.
Qed.

Lemma venue_scan_elem history ch ca mm n selected m :
  m ∈ venue_scan history ch ca mm n selected →
  m ∈ selected ∨
  ∃ idx, (idx < n)%nat ∧ history !! idx = Some m ∧
         is_venue_match ch ca m = true.
Proof.
  revert selected. induction n as [|idx IH]; intros selected; simpl.
  - auto.
  - destruct (history !! idx) as [m'|] eqn:Hidx; [|auto].
    destruct (is_venue_match ch ca m') eqn:Hv.
    + destruct (decide _).
      * intros [Hm | ->%list_elem_of_singleton]%elem_of_app; [auto|].
        right. exists idx. auto with lia.
      * intros [[Hm | ->%list_elem_of_singleton]%elem_of_app
               | (i & Hi & Hm & Hvm)]%IH; [auto| |].
        -- right. exists idx. auto with lia.
        -- right. exists i. auto with lia.
    + intros [Hm | (i & Hi & Hm & Hvm)]%IH; [auto|].
      right. exists i. auto with lia.
Qed.

Lemma slice_from_elem {A} k (s : list A) m :
  m ∈ slice_from k s → m ∈ s.
Proof.
  unfold slice_from. intros Hm.
  apply list_elem_of_In. apply list_elem_of_In in Hm.
  rewrite <- (take_drop (Z.to_nat
    (if decide (k < 0) then Z.max (Z.of_nat (length s) + k) 0
     else Z.min k (Z.of_nat (length s)))) s).
  apply in_or_app. by right.
Qed.

Lemma select_matches_elem history ch ca cutoff mm venue_only m :
  m ∈ select_matches history ch ca cutoff mm venue_only →
  ∃ idx, (idx < cutoff)%nat ∧ history !! idx = Some m.
Proof.
  unfold select_matches. destruct venue_only.
  - intros Hm. apply list_elem_of_In, in_rev, list_elem_of_In in Hm.
    apply venue_scan_elem in Hm as [Hm | (idx & ? & ? & _)].
    + by apply elem_of_nil in Hm.
    + eauto.
  - intros Hm%slice_from_elem.
    apply list_elem_of_lookup in Hm as [idx Hidx].
    apply lookup_take_Some in Hidx as [? ?]. eauto.
Qed.

Lemma compute_h2h_stats_selected history ch ca cd mm venue_only :
  compute_h2h_stats history ch ca cd mm venue_only =
  stats_of ch (h2h_selected history ch ca cd mm venue_only).
Proof.
  unfold compute_h2h_stats, h2h_selected.
  destruct history; [done|]. by destruct (decide _).
Qed.

Lemma matches_stats_of ch selected :
  matches (stats_of ch selected) = Z.of_nat (length selected).
Proof. by destruct selected. Qed.

Lemma venue_scan_length history ch ca mm n selected :
  let r := venue_scan history ch ca mm n selected in
  (length r ≤ length selected + n)%nat ∧
  Z.of_nat (length r) ≤ Z.max (Z.of_nat (length selected) + 1) mm.
Proof.
  revert selected. induction n as [|idx IH]; intros selected; simpl.
  - lia.
  - destruct (history !! idx) as [m|]; [|lia].
    destruct (is_venue_match ch ca m).
    + destruct (decide _) as [Hge|Hlt].
      * rewrite length_app in *. simpl in *. lia.
      * specialize (IH (selected ++ [m])).
        rewrite length_app in *. simpl in *. lia.
    + specialize (IH selected). simpl in IH. lia.
Qed.

Lemma slice_from_length {A} k (s : list A) :
  Z.of_nat (length (slice_from k s)) =
  Z.of_nat (length s) -
  (if decide (k < 0) then Z.max (Z.of_nat (length s) + k) 0
   else Z.min k (Z.of_nat (length s))).
Proof.
  unfold slice_from. rewrite length_drop. destruct (decide (k < 0)); lia.
Qed.

Lemma tally_fold ch selected t :
  let t' := fold_left (tally_match ch) selected t in
  home_wins t ≤ home_wins t' ∧ away_wins t ≤ away_wins t' ∧
  draws t ≤ draws t' ∧
  home_wins t' + away_wins t' + draws t' =
  home_wins t + away_wins t + draws t + Z.of_nat (length selected).
Proof.
  revert t. induction selected as [|m selected IH]; intros t; simpl.
  - lia.
  - specialize (IH (tally_match ch t m)). simpl in IH.
    assert (home_wins t ≤ home_wins (tally_match ch t m) ∧
            away_wins t ≤ away_wins (tally_match ch t m) ∧
            draws t ≤ draws (tally_match ch t m) ∧
            home_wins (tally_match ch t m) + away_wins (tally_match ch t m)
              + draws (tally_match ch t m) =
            home_wins t + away_wins t + draws t + 1) as Hstep.
    { unfold tally_match. destruct (reorient ch m) as [hg ag]. simpl.
      repeat case_decide; lia. }
    lia.
Qed.

Lemma tally_all_counts ch selected :
  0 ≤ home_wins (tally_all ch selected) ∧
  0 ≤ away_wins (tally_all ch selected) ∧
  0 ≤ draws (tally_all ch selected) ∧
  home_wins (tally_all ch selected) + away_wins (tally_all ch selected)
    + draws (tally_all ch selected) = Z.of_nat (length selected).
Proof.
  pose proof (tally_fold ch selected (mkTally 0 0 0 0 0 0)) as H.
  simpl in H. unfold tally_all. lia.
Qed.

Lemma pct_bounds k count :
  0 ≤ k ≤ count → 0 < count → (0 <= pct k count <= 100)%Q.
Proof.
  intros Hk Hc. destruct count as [|p|p]; [lia| |lia].
  unfold pct, Qle, Qdiv, Qmult, Qinv, inject_Z. simpl. lia.
Qed.

Lemma pct_sum a b d count :
  a + b + d = count → 0 < count →
  (pct a count + pct b count + pct d count == 100)%Q.
Proof.
  intros Hsum Hc. unfold pct.
  assert (~ inject_Z count == 0)%Q as Hnz.
  { unfold Qeq, inject_Z. simpl. lia. }
  assert (inject_Z a + inject_Z b + inject_Z d == inject_Z count)%Q as Heq.
  { rewrite <- !inject_Z_plus. by rewrite Hsum. }
  transitivity
    ((inject_Z a + inject_Z b + inject_Z d) / inject_Z count * 100)%Q.
  - field. exact Hnz.
  - rewrite Heq. field. exact Hnz.
Qed.

End H2HFacts.

Lemma lookup_map_date (history : list H2HMatch) idx m :
  history !! idx = Some m → map date history !! idx = Some (date m).
Proof.
  revert idx. induction history as [|m0 history IH]; intros [|idx] H;
    simpl in *; simplify_eq; auto.
Qed.

(** C1. Causality of the aggregator: on a history sorted by date, every
    match [compute_h2h_stats] aggregates, in the overall and in the venue
    variant, is dated strictly before the fixture. *)
Theorem h2h_causality history current_home current_away current_date
    max_matches venue_only m :
  Sorted Z.le (map date history) →
  m ∈ h2h_selected history current_home current_away current_date
        max_matches venue_only →
  date m < current_date.
Proof.
  intros Hs Hm. unfold h2h_selected in Hm.
  destruct history as [|m0 history]; [by apply elem_of_nil in Hm|].
  destruct (decide _) as [|Hcut]; [by apply elem_of_nil in Hm|].
  apply select_matches_elem in Hm as (idx & Hidx & Hl).
  destruct (bisect_left_spec _ current_date Hs) as [Hbelow _].
  apply (Hbelow idx); [done|]. by apply lookup_map_date.
Qed.

Lemma scenario_history_sorted : Sorted Z.le (map date scenario_history).
Proof. repeat constructor; by vm_compute. Qed.

Lemma h2h_causality_witness :
  let m := mkH2HMatch (timestamp_ymd 2021 6 1) "TeamB" "TeamA" 0 0 in
  Sorted Z.le (map date scenario_history) ∧
  m ∈ h2h_selected scenario_history "TeamA" "TeamB" (timestamp_ymd 2022 1 1)
        5 false ∧
  date m < timestamp_ymd 2022 1 1.
Proof.
  intros m.
  assert (m ∈ h2h_selected scenario_history "TeamA" "TeamB"
                (timestamp_ymd 2022 1 1) 5 false) as Hm.
  { apply list_elem_of_In. vm_compute. right. left. reflexivity. }
  split; [exact scenario_history_sorted|]. split; [exact Hm|].
  exact (h2h_causality _ _ _ _ _ _ _ scenario_history_sorted Hm).
Defined.

(** C2, as the specification states it, fails: the 2-1 match of the
    scenario has both teams scoring and three goals, so [btts_pct] and
    [over_2_5_pct] of the overall snapshot are 50, not 0. *)
Lemma h2h_scenario_as_stated_fails :
  ¬ (let overall :=
       compute_h2h_stats scenario_history "TeamA" "TeamB"
         (timestamp_ymd 2022 1 1) 5 false in
     let venue :=
       compute_h2h_stats scenario_history "TeamA" "TeamB"
         (timestamp_ymd 2022 1 1) 5 true in
     matches overall = 2 ∧ is_value (home_win_pct overall) 50 ∧
     is_value (draw_pct overall) 50 ∧ is_value (away_win_pct overall) 0 ∧
     is_value (avg_goals overall) 1.5 ∧ is_value (btts_pct overall) 0 ∧
     is_value (over_2_5_pct overall) 0 ∧
     matches venue = 1 ∧ is_value (home_win_pct venue) 100).
Proof.
  intros (_ & _ & _ & _ & _ & Hbtts & _).
  vm_compute in Hbtts. discriminate Hbtts.
Qed.

(** C2, amended. In the scenario the overall snapshot has matches = 2,
    home_win_pct = 50, draw_pct = 50, away_win_pct = 0, avg_goals = 1.5,
    btts_pct = 50 and over_2_5_pct = 50; the venue snapshot has
    matches = 1 and home_win_pct = 100. *)
Theorem h2h_scenario :
  let overall :=
    compute_h2h_stats scenario_history "TeamA" "TeamB"
      (timestamp_ymd 2022 1 1) 5 false in
  let venue :=
    compute_h2h_stats scenario_history "TeamA" "TeamB"
      (timestamp_ymd 2022 1 1) 5 true in
  matches overall = 2 ∧ is_value (home_win_pct overall) 50 ∧
  is_value (draw_pct overall) 50 ∧ is_value (away_win_pct overall) 0 ∧
  is_value (avg_goals overall) 1.5 ∧ is_value (btts_pct overall) 50 ∧
  is_value (over_2_5_pct overall) 50 ∧
  matches venue = 1 ∧ is_value (home_win_pct venue) 100.
Proof. vm_compute. repeat split. Qed.

(** C8. With the same non-negative [max_matches], the venue snapshot never
    counts more matches than the overall snapshot. *)
Theorem h2h_venue_count_le_overall history current_home current_away
    current_date max_matches :
  0 ≤ max_matches →
  matches (compute_h2h_stats history current_home current_away current_date
             max_matches true)
  ≤ matches (compute_h2h_stats history current_home current_away
               current_date max_matches false).
Proof.
  intros Hmm. rewrite !compute_h2h_stats_selected, !matches_stats_of.
  unfold h2h_selected. destruct history as [|m0 history]; [done|].
  destruct (decide _) as [|Hcut]; [done|].
  set (cutoff := bisect_left (map date (m0 :: history)) current_date) in *.
  pose proof (bisect_left_le_length (map date (m0 :: history)) current_date)
    as Hlen.
  fold cutoff in Hlen. rewrite length_map in Hlen.
  unfold select_matches. rewrite length_rev.
  pose proof (venue_scan_length (m0 :: history) current_home current_away
                max_matches cutoff []) as [Hv1 Hv2].
  rewrite slice_from_length, length_take. simpl length in *.
  destruct (decide (- max_matches < 0)); lia.
Qed.

Lemma h2h_venue_count_le_overall_witness :
  0 ≤ 5 ∧
  matches (compute_h2h_stats scenario_history "TeamA" "TeamB"
             (timestamp_ymd 2022 1 1) 5 true)
  ≤ matches (compute_h2h_stats scenario_history "TeamA" "TeamB"
               (timestamp_ymd 2022 1 1) 5 false).
Proof.
  split; [lia|].
  apply (h2h_venue_count_le_overall scenario_history "TeamA" "TeamB"
           (timestamp_ymd 2022 1 1) 5).
  lia.
Defined.

(** The bound on [max_matches] in C8 is needed: a negative value makes the
    slice of the overall variant drop matches from the front of the window,
    while the venue scan still stops after its first match. *)
Example h2h_venue_count_negative_cap :
  let history := [mkH2HMatch (timestamp_ymd 2021 1 1) "TeamA" "TeamB" 2 1] in
  matches (compute_h2h_stats history "TeamA" "TeamB"
             (timestamp_ymd 2022 1 1) (-1) true) = 1 ∧
  matches (compute_h2h_stats history "TeamA" "TeamB"
             (timestamp_ymd 2022 1 1) (-1) false) = 0.
Proof. by vm_compute. Qed.

(** C9. Empty-history contract: whenever no match is selected - in
    particular when the history is empty, when no match is dated strictly
    before the fixture, or when the venue variant finds no earlier match
    in the direction of the fixture - the snapshot has matches = 0 and
    every percentage and average is None. *)
Theorem h2h_empty_history_contract history current_home current_away
    current_date max_matches venue_only :
  h2h_selected history current_home current_away current_date max_matches
    venue_only = []
  ∨ history = []
  ∨ (∀ m, m ∈ history → current_date ≤ date m)
  ∨ (venue_only = true ∧ Sorted Z.le (map date history) ∧
     ∀ m, m ∈ history → date m < current_date →
          ¬ (home_team m = current_home ∧ away_team m = current_away)) →
  compute_h2h_stats history current_home current_away current_date
    max_matches venue_only
  = mkH2HStats 0 None None None None None None.
Proof.
  intros H. rewrite compute_h2h_stats_selected.
  enough (h2h_selected history current_home current_away current_date
            max_matches venue_only = []) as -> by done.
  destruct H as [H | [-> | [H | (-> & Hs & H)]]]; [done|done| |].
  - unfold h2h_selected. destruct history as [|m0 history]; [done|].
    unfold bisect_left. rewrite bisect_loop_none_below; [done|].
    intros v Hv. apply list_elem_of_In, in_map_iff in Hv as (m & <- & Hm).
    apply H. by apply list_elem_of_In.
  - destruct (h2h_selected history current_home current_away current_date
                max_matches true) as [|m l] eqn:Hsel; [done|].
    exfalso.
    assert (m ∈ h2h_selected history current_home current_away current_date
                  max_matches true) as Hm by (rewrite Hsel; left).
    unfold h2h_selected in Hm.
    destruct history as [|m0 history]; [by apply elem_of_nil in Hm|].
    destruct (decide _) as [|Hcut]; [by apply elem_of_nil in Hm|].
    unfold select_matches in Hm.
    apply list_elem_of_In, in_rev, list_elem_of_In in Hm.
    apply venue_scan_elem in Hm as [Hm | (idx & Hidx & Hl & Hv)];
      [by apply elem_of_nil in Hm|].
    destruct (bisect_left_spec _ current_date Hs) as [Hbelow _].
    apply (H m).
    + by eapply list_elem_of_lookup_2.
    + apply (Hbelow idx); [done|]. by apply lookup_map_date.
    + unfold is_venue_match in Hv.
      apply andb_prop in Hv as [H1%bool_decide_eq_true H2%bool_decide_eq_true].
      done.
Qed.

Lemma h2h_empty_history_contract_witness :
  let history := [mkH2HMatch (timestamp_ymd 2021 6 1) "TeamB" "TeamA" 0 0] in
  compute_h2h_stats history "TeamA" "TeamB" (timestamp_ymd 2022 1 1) 5 true
  = mkH2HStats 0 None None None None None None.
Proof.
  intros history.
  apply (h2h_empty_history_contract history "TeamA" "TeamB"
           (timestamp_ymd 2022 1 1) 5 true).
  right. right. right. split; [reflexivity|]. split.
  - repeat constructor.
  - intros m Hm _ [Hhome _].
    apply list_elem_of_singleton in Hm. subst m. simpl in Hhome.
    discriminate Hhome.
Defined.

(** C10. Whenever the snapshot counts at least one match, the three result
    percentages are present, each lies between 0 and 100, and as exact
    rationals they add up to 100. *)
Theorem h2h_result_pcts_partition history current_home current_away
    current_date max_matches venue_only :
  matches (compute_h2h_stats history current_home current_away current_date
             max_matches venue_only) > 0 →
  ∃ h a d : Q,
    home_win_pct (compute_h2h_stats history current_home current_away
                    current_date max_matches venue_only) = Some h ∧
    away_win_pct (compute_h2h_stats history current_home current_away
                    current_date max_matches venue_only) = Some a ∧
    draw_pct (compute_h2h_stats history current_home current_away
                current_date max_matches venue_only) = Some d ∧
    (0 <= h <= 100)%Q ∧ (0 <= a <= 100)%Q ∧ (0 <= d <= 100)%Q ∧
    (h + a + d == 100)%Q.
Proof.
  rewrite compute_h2h_stats_selected.
  destruct (h2h_selected history current_home current_away current_date
              max_matches venue_only) as [|m selected]; [simpl; lia|].
  intros _. set (sel := m :: selected).
  destruct (tally_all_counts current_home sel) as (Hh & Ha & Hd & Hsum).
  assert (0 < Z.of_nat (length sel)) as Hpos by (simpl; lia).
  exists (pct (home_wins (tally_all current_home sel)) (Z.of_nat (length sel))),
         (pct (away_wins (tally_all current_home sel)) (Z.of_nat (length sel))),
         (pct (draws (tally_all current_home sel)) (Z.of_nat (length sel))).
  split; [done|]. split; [done|]. split; [done|].
  split; [apply pct_bounds; lia|]. split; [apply pct_bounds; lia|].
  split; [apply pct_bounds; lia|]. by apply pct_sum.
Qed.

Lemma h2h_result_pcts_partition_witness :
  matches (compute_h2h_stats scenario_history "TeamA" "TeamB"
             (timestamp_ymd 2022 1 1) 5 false) > 0 ∧
  ∃ h a d : Q,
    home_win_pct (compute_h2h_stats scenario_history "TeamA" "TeamB"
                    (timestamp_ymd 2022 1 1) 5 false) = Some h ∧
    away_win_pct (compute_h2h_stats scenario_history "TeamA" "TeamB"
                    (timestamp_ymd 2022 1 1) 5 false) = Some a ∧
    draw_pct (compute_h2h_stats scenario_history "TeamA" "TeamB"
                (timestamp_ymd 2022 1 1) 5 false) = Some d ∧
    (0 <= h <= 100)%Q ∧ (0 <= a <= 100)%Q ∧ (0 <= d <= 100)%Q ∧
    (h + a + d == 100)%Q.
Proof.
  assert (matches (compute_h2h_stats scenario_history "TeamA" "TeamB"
                     (timestamp_ymd 2022 1 1) 5 false) > 0) as H
    by (vm_compute; reflexivity).
  split; [exact H|].
  exact (h2h_result_pcts_partition scenario_history "TeamA" "TeamB"
           (timestamp_ymd 2022 1 1) 5 false H).
Defined.

(** ** Merge stage, derived targets and report *)

Section PipelineFacts.

Local Arguments resolve_league_id : simpl never.
Local Arguments normalize_team_name : simpl never.
Local Arguments canonical_row : simpl never.
Local Arguments outcome_key : simpl never.
Local Arguments feature_key : simpl never.

Lemma get_col_set_col n name v r :
  get_col n (set_col name v r) =
  if String.eqb name n then Some v else get_col n r.
Proof.
  induction r as [|[n' w] r IH]; simpl.
  - by destruct (String.eqb name n).
  - destruct (String.eqb n' name) eqn:E1; simpl.
    + apply String.eqb_eq in E1 as ->.
      by destruct (String.eqb name n).
    + destruct (String.eqb n' n) eqn:E2; [|done].
      apply String.eqb_eq in E2 as ->.
      rewrite String.eqb_sym in E1. by rewrite E1.
Qed.

Lemma get_col_app n r1 r2 :
  get_col n (r1 ++ r2) =
  match get_col n r1 with Some v => Some v | None => get_col n r2 end.
Proof.
  induction r1 as [|[n' w] r1 IH]; simpl; [done|].
  by destruct (String.eqb n' n).
Qed.

(** Reading a column after a run of assignments: the last assignment to
    it if there is one, the old value otherwise. *)
Lemma get_col_assign_all n cols r :
  get_col n (assign_all cols r) =
  match get_col n (rev cols) with
  | Some v => Some v
  | None => get_col n r
  end.
Proof.
  unfold assign_all. revert r.
  induction cols as [|[name v] cols IH]; intros r; simpl; [done|].
  rewrite IH, get_col_app, get_col_set_col. simpl.
  destruct (get_col n (rev cols)); [done|].
  by destruct (String.eqb name n).
Qed.

Lemma filter_map_length {A B} (f : B → bool) (g : A → B) l :
  length (List.filter f (map g l)) =
  length (List.filter (fun x => f (g x)) l).
Proof.
  induction l as [|x l IH]; simpl; [done|].
  destruct (f (g x)); simpl; by rewrite IH.
Qed.

Lemma filter_ext_length {A} (f g : A → bool) l :
  (∀ x, f x = g x) →
  length (List.filter f l) = length (List.filter g l).
Proof. intros H. by rewrite (List.filter_ext f g H). Qed.

Lemma canonical_row_cases mappings r :
  (canonical_row mappings r = None ∧ league_resolved r = false) ∨
  ∃ c, canonical_row mappings r = Some c ∧ league_resolved r = true ∧
       Canon.row c = r ∧
       resolve_league_id (Raw.Division r) = Some (Canon.leagueId c).
Proof.
  unfold canonical_row, league_resolved.
  destruct (resolve_league_id (Raw.Division r)) as [lid|].
  - right. eexists. split; [reflexivity|].
    split; [by apply bool_decide_eq_true_2|done].
  - left. split; [done|]. apply bool_decide_eq_false_2. by intros [? ?].
Qed.

Lemma canonical_rows_filter mappings raw :
  canonical_rows mappings (List.filter league_resolved raw) =
  canonical_rows mappings raw.
Proof.
  unfold canonical_rows.
  induction raw as [|r raw IH]; [reflexivity|].
  cbn [List.filter omap list_omap].
  destruct (canonical_row_cases mappings r)
    as [[Hc Hr] | (c & Hc & Hr & _)]; rewrite Hr, ?Hc.
  - exact IH.
  - cbn [omap list_omap]. by rewrite Hc, IH.
Qed.

Lemma canonical_rows_resolved mappings raw :
  Forall (fun c => Canon.row c ∈ raw ∧
                   resolve_league_id (Raw.Division (Canon.row c))
                   = Some (Canon.leagueId c))
         (canonical_rows mappings raw).
Proof.
  unfold canonical_rows.
  induction raw as [|r raw IH]; [constructor|].
  assert (Forall (fun c => Canon.row c ∈ r :: raw ∧
                   resolve_league_id (Raw.Division (Canon.row c))
                   = Some (Canon.leagueId c))
            (omap (canonical_row mappings) raw)) as IH'.
  { eapply Forall_impl; [exact IH|]. intros c [? ?]. split; [by right|done]. }
  cbn [omap list_omap].
  destruct (canonical_row_cases mappings r)
    as [[Hc Hr] | (c & Hc & Hr & Hrow & Hres)]; rewrite Hc; [done|].
  constructor; [|done]. rewrite Hrow. split; [by left|done].
Qed.

(** With unique keys at most one row of the right frame has a given key. *)
Lemma filter_key_unique right k :
  NoDup (map outcome_key right) →
  List.filter (fun o => bool_decide (outcome_key o = k)) right = [] ∨
  ∃ o, List.filter (fun o => bool_decide (outcome_key o = k)) right = [o].
Proof.
  induction right as [|o right IH]; simpl; [auto|].
  intros [Hnotin Hnd]%NoDup_cons. specialize (IH Hnd).
  destruct (bool_decide (outcome_key o = k)) eqn:E; [|done].
  apply bool_decide_eq_true in E. right. exists o. f_equal.
  destruct (List.filter _ right) as [|o' l] eqn:Hf; [done|]. exfalso.
  assert (In o' (List.filter
                   (fun o => bool_decide (outcome_key o = k)) right))
    as Hin by (rewrite Hf; by left).
  apply List.filter_In in Hin as [Hin Hk%bool_decide_eq_true].
  apply Hnotin. rewrite E, <- Hk.
  apply list_elem_of_In, in_map, Hin.
Qed.

Lemma join_left_single right f :
  NoDup (map outcome_key right) →
  ∃ mo, join_left right f = [(f, mo)] ∧ joined_right right (f, mo).
Proof.
  intros Hnd. unfold join_left.
  destruct (filter_key_unique right (feature_key f) Hnd) as [Hf | [o Hf]].
  - rewrite Hf. exists None. split; [done|]. split; [|done].
    intros o Ho Hk.
    assert (In o (List.filter
              (fun o => bool_decide (outcome_key o = feature_key f)) right))
      as Hin.
    { apply List.filter_In. split; [by apply list_elem_of_In|].
      by apply bool_decide_eq_true. }
    by rewrite Hf in Hin.
  - rewrite Hf. exists (Some o). split; [done|].
    assert (In o (List.filter
              (fun o => bool_decide (outcome_key o = feature_key f)) right))
      as Hin by (rewrite Hf; by left).
    apply List.filter_In in Hin as [Hin Hk%bool_decide_eq_true].
    split; [by apply list_elem_of_In|done].
Qed.

Lemma flat_map_join_left right features :
  NoDup (map outcome_key right) →
  map fst (flat_map (join_left right) features) = features ∧
  Forall (joined_right right) (flat_map (join_left right) features).
Proof.
  intros Hnd. induction features as [|f features [IH1 IH2]]; simpl.
  - split; [done|constructor].
  - destruct (join_left_single right f Hnd) as (mo & -> & Hj). simpl.
    split; [by rewrite IH1|by constructor].
Qed.

Lemma join_left_fst right f m : In m (join_left right f) → m.1 = f.
Proof.
  unfold join_left. destruct (List.filter _ right) as [|o os].
  - by intros [<- | []].
  - intros (o' & <- & _)%in_map_iff. done.
Qed.

Lemma merge_fst features right merged m :
  merge features right = inr merged → m ∈ merged → m.1 ∈ features.
Proof.
  unfold merge. destruct (bool_decide _); [|done].
  intros [= <-] Hm. apply list_elem_of_In, in_flat_map in Hm as (f & Hf & Hm).
  apply join_left_fst in Hm as ->. by apply list_elem_of_In.
Qed.

End PipelineFacts.

Section OutputFacts.

Local Arguments resolve_league_id : simpl never.
Local Arguments normalize_team_name : simpl never.
Local Arguments canonical_row : simpl never.
Local Arguments compute_h2h_stats : simpl never.
Local Arguments build_pair_map : simpl never.

Lemma lookup_map_Some {A B} (f : A → B) (l : list A) i x :
  l !! i = Some x → map f l !! i = Some (f x).
Proof.
  revert i. induction l as [|y l IH]; intros [|i] H;
    simpl in *; simplify_eq; auto.
Qed.

Lemma notnull_num x : notnull (Some (num x)) = bool_decide (is_Some x).
Proof.
  destruct x.
  - by rewrite bool_decide_eq_true_2 by eauto.
  - by rewrite bool_decide_eq_false_2 by (by intros [? ?]).
Qed.

Variable pair_map : gmap string (list H2HMatch).
Variable m : MergedRow.

(** The last assignment to a column of [assigned_columns], the H2H
    snapshots left abstract. *)
Local Ltac last_assignment :=
  unfold assigned_columns;
  generalize (h2h_of_row pair_map false m) as overall;
  generalize (h2h_of_row pair_map true m) as venue;
  intros venue overall; destruct m as [f o];
  vm_compute; reflexivity.

Lemma result_not_assigned :
  get_col "result" (rev (assigned_columns pair_map m)) = None.
Proof. last_assignment. Qed.

Lemma homeGoals_not_assigned :
  get_col "homeGoals" (rev (assigned_columns pair_map m)) = None.
Proof. last_assignment. Qed.

Lemma awayGoals_not_assigned :
  get_col "awayGoals" (rev (assigned_columns pair_map m)) = None.
Proof. last_assignment. Qed.

Lemma fh_result_assigned :
  get_col "fh_result" (rev (assigned_columns pair_map m)) =
  Some (text (half_result (outcome_field Raw.HTHome m.2)
                          (outcome_field Raw.HTAway m.2))).
Proof. last_assignment. Qed.

Lemma fh_goals_total_assigned :
  get_col "fh_goals_total" (rev (assigned_columns pair_map m)) =
  Some (num (fh_goals_total m)).
Proof. last_assignment. Qed.

Lemma total_cards_assigned :
  get_col "total_cards" (rev (assigned_columns pair_map m)) =
  Some (num (total_cards m)).
Proof. last_assignment. Qed.

Lemma total_corners_assigned :
  get_col "total_corners" (rev (assigned_columns pair_map m)) =
  Some (num (total_corners m)).
Proof. last_assignment. Qed.

Lemma output_row_result :
  get_col "result" (output_row pair_map m) =
  get_col "result" (Feature.extra m.1).
Proof.
  unfold output_row. rewrite get_col_assign_all, result_not_assigned.
  unfold merged_columns, feature_columns. rewrite !get_col_app.
  change (get_col "result" (outcome_columns m.2)) with (@None cell).
  cbn [get_col String.eqb Ascii.eqb Bool.eqb].
  by destruct (get_col "result" (Feature.extra m.1)).
Qed.

Lemma output_row_goals :
  get_col "homeGoals" (output_row pair_map m)
  = Some (num (Feature.homeGoals m.1)) ∧
  get_col "awayGoals" (output_row pair_map m)
  = Some (num (Feature.awayGoals m.1)).
Proof.
  unfold output_row.
  rewrite !get_col_assign_all, homeGoals_not_assigned,
    awayGoals_not_assigned.
  unfold merged_columns, feature_columns. rewrite !get_col_app.
  cbn [get_col String.eqb Ascii.eqb Bool.eqb]. done.
Qed.

Lemma output_row_fh_result :
  get_col "fh_result" (output_row pair_map m) =
  Some (text (half_result (outcome_field Raw.HTHome m.2)
                          (outcome_field Raw.HTAway m.2))).
Proof.
  unfold output_row. by rewrite get_col_assign_all, fh_result_assigned.
Qed.

Lemma output_row_coverage :
  notnull (get_col "fh_goals_total" (output_row pair_map m))
  = bool_decide (is_Some (fh_goals_total m)) ∧
  notnull (get_col "total_cards" (output_row pair_map m))
  = bool_decide (is_Some (total_cards m)) ∧
  notnull (get_col "total_corners" (output_row pair_map m))
  = bool_decide (is_Some (total_corners m)).
Proof.
  unfold output_row.
  rewrite !get_col_assign_all, fh_goals_total_assigned,
    total_cards_assigned, total_corners_assigned.
  by rewrite !notnull_num.
Qed.

End OutputFacts.

Lemma main_merge features raw mappings out_path :
  main features raw mappings out_path =
  match merge features (canonical_rows mappings raw) with
  | inl e => inl e
  | inr merged =>
      inr {| written :=
               map (output_row (build_pair_map (canonical_rows mappings raw)))
                   merged;
             printed :=
               [ TargetsWrittenTo out_path;
                 Coverage (count_notna fh_goals_total merged)
                          (count_notna total_cards merged)
                          (count_notna total_corners merged) ] |}
  end.
Proof. reflexivity. Qed.

(** C3. The merge enforces its many-to-one contract: two rows of the
    outcome table with the same key (date, leagueId, homeTeam, awayTeam)
    make the merge, and with it the run, end in an error with nothing
    written; without such a pair every feature row appears exactly once in
    the merged table, in order, joined to the one outcome row with its key
    or, when there is none, kept with null outcome fields. *)
Theorem merge_many_to_one_enforced features raw mappings out_path :
  (∀ i j o1 o2,
     i ≠ j →
     canonical_rows mappings raw !! i = Some o1 →
     canonical_rows mappings raw !! j = Some o2 →
     outcome_key o1 = outcome_key o2 →
     merge features (canonical_rows mappings raw) = inl NotManyToOne ∧
     main features raw mappings out_path = inl NotManyToOne) ∧
  (NoDup (map outcome_key (canonical_rows mappings raw)) →
   ∃ merged,
     merge features (canonical_rows mappings raw) = inr merged ∧
     map fst merged = features ∧
     Forall (joined_right (canonical_rows mappings raw)) merged ∧
     ∃ run, main features raw mappings out_path = inr run ∧
            length (written run) = length features).
Proof.
  rewrite main_merge. set (right := canonical_rows mappings raw). split.
  - intros i j o1 o2 Hij Hi Hj Hkey.
    assert (merge features right = inl NotManyToOne) as ->; [|done].
    unfold merge. rewrite bool_decide_eq_false_2; [done|].
    intros Hnd. apply Hij.
    apply (NoDup_lookup _ i j (outcome_key o1) Hnd).
    + by apply lookup_map_Some.
    + rewrite Hkey. by apply lookup_map_Some.
  - intros Hnd. unfold merge. rewrite bool_decide_eq_true_2 by done.
    destruct (flat_map_join_left right features Hnd) as [Hfst Hall].
    eexists. split; [reflexivity|]. split; [exact Hfst|].
    split; [exact Hall|]. eexists. split; [reflexivity|].
    cbn [written]. rewrite length_map.
    rewrite <- Hfst at 2. by rewrite length_map.
Qed.

Lemma merge_many_to_one_enforced_witness :
  main demo_features [demo_raw_row; demo_raw_row] demo_mappings "out.csv"
  = inl NotManyToOne ∧
  ∃ merged,
    merge demo_features (canonical_rows demo_mappings [demo_raw_row])
    = inr merged ∧
    map fst merged = demo_features.
Proof.
  split.
  - destruct (merge_many_to_one_enforced demo_features
                [demo_raw_row; demo_raw_row] demo_mappings "out.csv")
      as [Hdup _].
    destruct (canonical_rows demo_mappings [demo_raw_row; demo_raw_row])
      as [|o1 [|o2 l]] eqn:Hrows; try (vm_compute in Hrows; discriminate).
    apply (Hdup 0%nat 1%nat o1 o2); [lia|reflexivity|reflexivity|].
    vm_compute in Hrows. injection Hrows as <- <- _. reflexivity.
  - destruct (merge_many_to_one_enforced demo_features [demo_raw_row]
                demo_mappings "out.csv") as [_ Hone].
    destruct Hone as (merged & Hm & Hfst & _).
    + apply (bool_decide_unpack _). vm_compute. reflexivity.
    + exists merged. split; [exact Hm|exact Hfst].
Defined.

(** C4, as the specification states it, fails: for a feature table
    without a [result] column the written table has none either, whatever
    the final goals are. *)
Lemma result_column_as_stated_fails :
  ¬ (∀ features raw mappings out_path run row h a,
       main features raw mappings out_path = inr run →
       row ∈ written run →
       get_col "homeGoals" row = Some (VInt h) →
       get_col "awayGoals" row = Some (VInt a) →
       get_col "result" row = Some (VStr (result_label h a))).
Proof.
  intros H.
  set (f := Feature.mk (days_from_civil 2022 1 1) 39 "TeamA" "TeamB"
              (Some 2) (Some 1) []).
  set (row := output_row ∅ (f, None)).
  specialize (H [f] [] ∅ "out.csv"%string
                (run_or_empty (main [f] [] ∅ "out.csv")) row 2 1).
  assert (get_col "result" row = Some (VStr (result_label 2 1))) as Hres.
  { apply H.
    - vm_compute. reflexivity.
    - apply list_elem_of_In. vm_compute. left. reflexivity.
    - vm_compute. reflexivity.
    - vm_compute. reflexivity. }
  vm_compute in Hres. discriminate Hres.
Qed.

(** C4, amended. The pipeline derives no [result] column: every written
    row belongs to a feature row, carries that row's final goals, and has
    under [result] exactly what the feature row has there (nothing when the
    feature table has no such column).  The HOME / AWAY / DRAW comparison
    [main] performs is the one of [fh_result], on the half-time goals. *)
Theorem result_column_not_derived features raw mappings out_path run row :
  main features raw mappings out_path = inr run →
  row ∈ written run →
  ∃ m : MergedRow,
    m.1 ∈ features ∧
    get_col "homeGoals" row = Some (num (Feature.homeGoals m.1)) ∧
    get_col "awayGoals" row = Some (num (Feature.awayGoals m.1)) ∧
    get_col "result" row = get_col "result" (Feature.extra m.1) ∧
    get_col "fh_result" row =
    Some (text (half_result (outcome_field Raw.HTHome m.2)
                            (outcome_field Raw.HTAway m.2))).
Proof.
  rewrite main_merge.
  destruct (merge features (canonical_rows mappings raw))
    as [e|merged] eqn:Hmerge; [discriminate|].
  intros [= <-] Hrow. cbn [written] in Hrow.
  apply list_elem_of_In, in_map_iff in Hrow as (m & <- & Hm).
  exists m. split.
  { eapply merge_fst; [exact Hmerge|]. by apply list_elem_of_In. }
  destruct (output_row_goals
              (build_pair_map (canonical_rows mappings raw)) m) as [Hh Ha].
  split; [exact Hh|]. split; [exact Ha|].
  split; [apply output_row_result|apply output_row_fh_result].
Qed.

Lemma demo_run_ok :
  main demo_features [demo_raw_row] demo_mappings "out.csv" = inr demo_run.
Proof. vm_compute. reflexivity. Qed.

Lemma result_column_not_derived_witness :
  ∃ row,
    row ∈ written demo_run ∧
    ∃ m : MergedRow,
      m.1 ∈ demo_features ∧
      get_col "homeGoals" row = Some (num (Feature.homeGoals m.1)) ∧
      get_col "awayGoals" row = Some (num (Feature.awayGoals m.1)) ∧
      get_col "result" row = get_col "result" (Feature.extra m.1) ∧
      get_col "fh_result" row =
      Some (text (half_result (outcome_field Raw.HTHome m.2)
                              (outcome_field Raw.HTAway m.2))).
Proof.
  assert (∃ row, row ∈ written demo_run) as [row Hrow].
  { destruct (written demo_run) as [|row rows] eqn:Hrows;
      [vm_compute in Hrows; discriminate|].
    exists row. left. }
  exists row. split; [exact Hrow|].
  exact (result_column_not_derived demo_features [demo_raw_row]
           demo_mappings "out.csv" demo_run row demo_run_ok Hrow).
Defined.

(** C5, as the specification states it, fails: the lines [main] prints do
    not determine the number of rows dropped for an unresolved league; two
    runs that differ only in such a row print the same. *)
Lemma excluded_count_not_reported :
  ¬ (∃ count_of : list Printed → nat,
       ∀ features raw mappings out_path run,
         main features raw mappings out_path = inr run →
         count_of (printed run) = excluded_rows raw).
Proof.
  intros [count_of H].
  pose proof (H demo_features [demo_raw_row] demo_mappings
                "out.csv"%string demo_run demo_run_ok) as H0.
  assert (main demo_features [demo_unknown_league_row; demo_raw_row]
            demo_mappings "out.csv" = inr demo_run) as Hrun
    by (vm_compute; reflexivity).
  pose proof (H _ _ _ _ _ Hrun) as H1.
  rewrite H0 in H1. vm_compute in H1. discriminate H1.
Qed.

(** C5, amended. Raw rows whose league label does not resolve are dropped
    before the pair index is built and before the merge: the run is the
    one of the raw table without them, and every row that reaches the
    index and the merge has a resolved league.  What [main] prints is the
    output path and the non-null counts of [fh_goals_total], [total_cards]
    and [total_corners] in the written table, nothing else. *)
Theorem unresolved_league_dropped_and_report features raw mappings out_path :
  main features raw mappings out_path
  = main features (List.filter league_resolved raw) mappings out_path ∧
  Forall (fun c => Canon.row c ∈ raw ∧
                   resolve_league_id (Raw.Division (Canon.row c))
                   = Some (Canon.leagueId c))
         (canonical_rows mappings raw) ∧
  match main features raw mappings out_path with
  | inr run =>
      printed run =
      [ TargetsWrittenTo out_path;
        Coverage (count_notnull "fh_goals_total" (written run))
                 (count_notnull "total_cards" (written run))
                 (count_notnull "total_corners" (written run)) ]
  | inl _ => True
  end.
Proof.
  split; [|split].
  - by rewrite !main_merge, canonical_rows_filter.
  - apply canonical_rows_resolved.
  - rewrite main_merge.
    destruct (merge features (canonical_rows mappings raw))
      as [e|merged]; [done|].
    cbn [printed written]. unfold count_notnull, count_notna.
    set (pair_map := build_pair_map (canonical_rows mappings raw)).
    rewrite !filter_map_length.
    do 2 f_equal. f_equal; apply filter_ext_length; intros m;
      destruct (output_row_coverage pair_map m) as (H1 & H2 & H3);
      by rewrite ?H1, ?H2, ?H3.
Qed.


(** * Further properties of the code *)

(** ** Windows of the head-to-head aggregator *)

Lemma rev_take_rev {A} (l : list A) k :
  rev (take k (rev l)) = drop (length l - k) l.
Proof. by rewrite firstn_rev, rev_involutive. Qed.

(** The backward scan with its early exit collects the venue-direction
    matches below [n], most recent first, up to the cap. *)
Lemma venue_scan_spec history ch ca mm n selected :
  1 ≤ mm → (n ≤ length history)%nat → Z.of_nat (length selected) < mm →
  venue_scan history ch ca mm n selected =
  selected ++
  take (Z.to_nat mm - length selected)
       (rev (List.filter (is_venue_match ch ca) (take n history))).
Proof.
  intros Hmm. revert selected.
  induction n as [|idx IH]; intros selected Hn Hsel.
  - simpl. by rewrite take_nil, app_nil_r.
  - destruct (lookup_lt_is_Some_2 history idx ltac:(lia)) as [m Hm].
    rewrite (take_S_r _ _ _ Hm), List.filter_app, rev_app_distr.
    cbn [venue_scan]. rewrite Hm. cbn [List.filter].
    destruct (is_venue_match ch ca m); cbn [rev app].
    + destruct (decide _) as [Hfull|Hroom].
      * rewrite length_app in Hfull. simpl in Hfull.
        replace (Z.to_nat mm - length selected)%nat with 1%nat by lia.
        by rewrite firstn_cons, take_0.
      * rewrite length_app in Hroom. simpl in Hroom.
        rewrite IH by (rewrite ?length_app; simpl; lia).
        rewrite length_app. simpl length.
        replace (Z.to_nat mm - length selected)%nat
          with (S (Z.to_nat mm - (length selected + 1)))%nat by lia.
        by rewrite firstn_cons, <- app_assoc.
    + rewrite IH by lia. done.
Qed.

(** X1. Both variants keep the most recent [max_matches] of their
    candidates, oldest first: the overall variant of the matches below the
    cutoff, the venue variant of those among them played in the direction
    of the fixture. *)
Theorem h2h_selected_most_recent history current_home current_away
    current_date max_matches :
  1 ≤ max_matches →
  let eligible :=
    take (bisect_left (map date history) current_date) history in
  h2h_selected history current_home current_away current_date max_matches
    false
  = drop (length eligible - Z.to_nat max_matches) eligible ∧
  h2h_selected history current_home current_away current_date max_matches
    true
  = drop (length (List.filter (is_venue_match current_home current_away)
                    eligible) - Z.to_nat max_matches)
         (List.filter (is_venue_match current_home current_away) eligible).
Proof.
  intros Hmm eligible. unfold h2h_selected.
  destruct history as [|m0 history].
  { subst eligible. by rewrite take_nil. }
  set (cutoff := bisect_left (map date (m0 :: history)) current_date) in *.
  pose proof (bisect_left_le_length (map date (m0 :: history)) current_date)
    as Hlen.
  fold cutoff in Hlen. rewrite length_map in Hlen.
  destruct (decide (cutoff ≤ 0)%nat) as [Hzero|Hpos].
  { assert (cutoff = 0%nat) as Hc by lia.
    subst eligible. rewrite Hc. by rewrite take_0. }
  unfold select_matches. split.
  - unfold slice_from. fold eligible.
    destruct (decide (- max_matches < 0)); [|lia]. f_equal. lia.
  - rewrite venue_scan_spec by (cbn [length] in *; lia).
    cbn [app length]. rewrite Nat.sub_0_r. fold eligible.
    apply rev_take_rev.
Qed.

Lemma h2h_selected_most_recent_witness :
  h2h_selected scenario_history "TeamA" "TeamB" (timestamp_ymd 2022 1 1) 1
    false
  = [mkH2HMatch (timestamp_ymd 2021 6 1) "TeamB" "TeamA" 0 0] ∧
  h2h_selected scenario_history "TeamA" "TeamB" (timestamp_ymd 2022 1 1) 1
    true
  = [mkH2HMatch (timestamp_ymd 2021 1 1) "TeamA" "TeamB" 2 1].
Proof.
  destruct (h2h_selected_most_recent scenario_history "TeamA" "TeamB"
              (timestamp_ymd 2022 1 1) 1 ltac:(lia)) as [H1 H2].
  split.
  - etransitivity; [exact H1|]. vm_compute. reflexivity.
  - etransitivity; [exact H2|]. vm_compute. reflexivity.
Defined.

(** X2. Window bound: with a cap of at least one, neither snapshot counts
    more than [max_matches] matches, nor more matches than lie below the
    cutoff. *)
Theorem h2h_window_bound history current_home current_away current_date
    max_matches venue_only :
  1 ≤ max_matches →
  0 ≤ matches (compute_h2h_stats history current_home current_away
                 current_date max_matches venue_only) ≤ max_matches ∧
  matches (compute_h2h_stats history current_home current_away current_date
             max_matches venue_only)
  ≤ Z.of_nat (bisect_left (map date history) current_date).
Proof.
  intros Hmm. rewrite compute_h2h_stats_selected, matches_stats_of.
  unfold h2h_selected. destruct history as [|m0 history]; [simpl; lia|].
  destruct (decide _) as [|Hcut]; [simpl; lia|].
  set (cutoff := bisect_left (map date (m0 :: history)) current_date) in *.
  pose proof (bisect_left_le_length (map date (m0 :: history)) current_date)
    as Hlen.
  fold cutoff in Hlen. rewrite length_map in Hlen.
  unfold select_matches. destruct venue_only.
  - rewrite length_rev.
    pose proof (venue_scan_length (m0 :: history) current_home current_away
                  max_matches cutoff []) as [Hv1 Hv2].
    simpl length in *. lia.
  - rewrite slice_from_length, length_take. simpl length in *.
    destruct (decide (- max_matches < 0)); lia.
Qed.

Lemma h2h_window_bound_witness :
  0 ≤ matches (compute_h2h_stats scenario_history "TeamA" "TeamB"
                 (timestamp_ymd 2022 1 1) 1 false) ≤ 1 ∧
  matches (compute_h2h_stats scenario_history "TeamA" "TeamB"
             (timestamp_ymd 2022 1 1) 1 false)
  ≤ Z.of_nat (bisect_left (map date scenario_history)
                (timestamp_ymd 2022 1 1)).
Proof.
  apply (h2h_window_bound scenario_history "TeamA" "TeamB"
           (timestamp_ymd 2022 1 1) 1 false).
  lia.
Defined.

(** ** Perspective of the overall snapshot *)

Lemma tally_match_swap a b t1 t2 m :
  a ≠ b →
  (home_team m = a ∧ away_team m = b) ∨ (home_team m = b ∧ away_team m = a) →
  home_wins t1 = away_wins t2 → away_wins t1 = home_wins t2 →
  draws t1 = draws t2 → total_goals t1 = total_goals t2 →
  btts t1 = btts t2 → over_2_5 t1 = over_2_5 t2 →
  home_wins (tally_match a t1 m) = away_wins (tally_match b t2 m) ∧
  away_wins (tally_match a t1 m) = home_wins (tally_match b t2 m) ∧
  draws (tally_match a t1 m) = draws (tally_match b t2 m) ∧
  total_goals (tally_match a t1 m) = total_goals (tally_match b t2 m) ∧
  btts (tally_match a t1 m) = btts (tally_match b t2 m) ∧
  over_2_5 (tally_match a t1 m) = over_2_5 (tally_match b t2 m).
Proof.
  intros Hab Hm H1 H2 H3 H4 H5 H6. unfold tally_match, reorient.
  destruct Hm as [[Hh Ha] | [Hh Ha]].
  - rewrite (bool_decide_eq_true_2 (home_team m = a)) by done.
    rewrite (bool_decide_eq_false_2 (home_team m = b)) by congruence.
    cbn [home_wins away_wins draws total_goals btts over_2_5].
    rewrite (Z.add_comm (away_goals m) (home_goals m)).
    destruct (Qgt_bool (inject_Z (home_goals m + away_goals m)) 2.5);
      repeat case_decide; repeat split; lia.
  - rewrite (bool_decide_eq_false_2 (home_team m = a)) by congruence.
    rewrite (bool_decide_eq_true_2 (home_team m = b)) by done.
    cbn [home_wins away_wins draws total_goals btts over_2_5].
    rewrite (Z.add_comm (away_goals m) (home_goals m)).
    destruct (Qgt_bool (inject_Z (home_goals m + away_goals m)) 2.5);
      repeat case_decide; repeat split; lia.
Qed.

Lemma tally_fold_swap a b selected t1 t2 :
  a ≠ b →
  Forall (fun m => (home_team m = a ∧ away_team m = b) ∨
                   (home_team m = b ∧ away_team m = a)) selected →
  home_wins t1 = away_wins t2 → away_wins t1 = home_wins t2 →
  draws t1 = draws t2 → total_goals t1 = total_goals t2 →
  btts t1 = btts t2 → over_2_5 t1 = over_2_5 t2 →
  home_wins (fold_left (tally_match a) selected t1)
  = away_wins (fold_left (tally_match b) selected t2) ∧
  away_wins (fold_left (tally_match a) selected t1)
  = home_wins (fold_left (tally_match b) selected t2) ∧
  draws (fold_left (tally_match a) selected t1)
  = draws (fold_left (tally_match b) selected t2) ∧
  total_goals (fold_left (tally_match a) selected t1)
  = total_goals (fold_left (tally_match b) selected t2) ∧
  btts (fold_left (tally_match a) selected t1)
  = btts (fold_left (tally_match b) selected t2) ∧
  over_2_5 (fold_left (tally_match a) selected t1)
  = over_2_5 (fold_left (tally_match b) selected t2).
Proof.
  intros Hab Hall. revert t1 t2.
  induction Hall as [|m selected Hm _ IH]; intros t1 t2 H1 H2 H3 H4 H5 H6.
  - done.
  - cbn [fold_left].
    destruct (tally_match_swap a b t1 t2 m Hab Hm H1 H2 H3 H4 H5 H6)
      as (? & ? & ? & ? & ? & ?).
    by apply IH.
Qed.

Lemma h2h_selected_lookup history ch ca cd mm venue_only m :
  m ∈ h2h_selected history ch ca cd mm venue_only →
  ∃ idx, (idx < bisect_left (map date history) cd)%nat ∧
         history !! idx = Some m.
Proof.
  unfold h2h_selected. destruct history as [|m0 history].
  { by intros ?%elem_of_nil. }
  destruct (decide _); [by intros ?%elem_of_nil|].
  apply select_matches_elem.
Qed.

Lemma h2h_selected_elem history ch ca cd mm venue_only m :
  m ∈ h2h_selected history ch ca cd mm venue_only → m ∈ history.
Proof.
  intros (idx & _ & Hidx)%h2h_selected_lookup.
  by eapply list_elem_of_lookup_2.
Qed.

(** X3. For a history of meetings of two teams, computing the overall
    snapshot from the other team's side swaps the home-win and away-win
    percentages and leaves the match count, the draws, the goal average,
    the both-teams-scored and the over-2.5 percentages unchanged. *)
Theorem h2h_overall_perspective_swap history a b current_date max_matches :
  a ≠ b →
  (∀ m, m ∈ history →
        (home_team m = a ∧ away_team m = b) ∨
        (home_team m = b ∧ away_team m = a)) →
  matches (compute_h2h_stats history a b current_date max_matches false)
  = matches (compute_h2h_stats history b a current_date max_matches false) ∧
  home_win_pct (compute_h2h_stats history a b current_date max_matches false)
  = away_win_pct (compute_h2h_stats history b a current_date max_matches
                    false) ∧
  away_win_pct (compute_h2h_stats history a b current_date max_matches false)
  = home_win_pct (compute_h2h_stats history b a current_date max_matches
                    false) ∧
  draw_pct (compute_h2h_stats history a b current_date max_matches false)
  = draw_pct (compute_h2h_stats history b a current_date max_matches false) ∧
  avg_goals (compute_h2h_stats history a b current_date max_matches false)
  = avg_goals (compute_h2h_stats history b a current_date max_matches
                 false) ∧
  btts_pct (compute_h2h_stats history a b current_date max_matches false)
  = btts_pct (compute_h2h_stats history b a current_date max_matches false) ∧
  over_2_5_pct (compute_h2h_stats history a b current_date max_matches false)
  = over_2_5_pct (compute_h2h_stats history b a current_date max_matches
                    false).
Proof.
  intros Hab Hpair. rewrite !compute_h2h_stats_selected.
  assert (h2h_selected history b a current_date max_matches false
          = h2h_selected history a b current_date max_matches false) as ->.
  { unfold h2h_selected, select_matches. reflexivity. }
  assert (Forall (fun m => (home_team m = a ∧ away_team m = b) ∨
                           (home_team m = b ∧ away_team m = a))
            (h2h_selected history a b current_date max_matches false))
    as Hall.
  { apply List.Forall_forall. intros m Hm. apply Hpair.
    eapply h2h_selected_elem. apply list_elem_of_In. exact Hm. }
  destruct (h2h_selected history a b current_date max_matches false)
    as [|m selected] eqn:Hsel; [done|].
  destruct (tally_fold_swap a b (m :: selected) (mkTally 0 0 0 0 0 0)
              (mkTally 0 0 0 0 0 0) Hab Hall)
    as (H1 & H2 & H3 & H4 & H5 & H6); try reflexivity.
  unfold stats_of, tally_all.
  cbn [matches home_win_pct away_win_pct draw_pct avg_goals btts_pct
       over_2_5_pct].
  rewrite H1, H2, H3, H4, H5, H6. done.
Qed.

Lemma h2h_overall_perspective_swap_witness :
  home_win_pct (compute_h2h_stats scenario_history "TeamA" "TeamB"
                  (timestamp_ymd 2022 1 1) 5 false)
  = away_win_pct (compute_h2h_stats scenario_history "TeamB" "TeamA"
                    (timestamp_ymd 2022 1 1) 5 false).
Proof.
  refine (proj1 (proj2 (h2h_overall_perspective_swap scenario_history
            "TeamA" "TeamB" (timestamp_ymd 2022 1 1) 5 _ _))).
  - discriminate.
  - intros m Hm. apply list_elem_of_In in Hm.
    destruct Hm as [<- | [<- | []]]; [left|right]; split; reflexivity.
Defined.

(** ** Pairwise history index *)

(** X4. The pair key does not depend on which of the two teams is at
    home. *)
Theorem build_pair_key_symmetric (home_team away_team : string) :
  build_pair_key home_team away_team = build_pair_key away_team home_team.
Proof.
  unfold build_pair_key, String.ltb.
  rewrite (String.compare_antisym home_team away_team).
  destruct (String.compare away_team home_team) eqn:E; simpl; try done.
  by apply String.compare_eq_iff in E as ->.
Qed.

Lemma insert_by_date_perm m l : Permutation (insert_by_date m l) (m :: l).
Proof.
  induction l as [|x l IH]; simpl; [done|].
  destruct (decide (date m ≤ date x)); [done|].
  rewrite IH. apply perm_swap.
Qed.

Lemma insert_by_date_sorted m l :
  Sorted Z.le (map date l) → Sorted Z.le (map date (insert_by_date m l)).
Proof.
  induction l as [|x l IH]; intros Hs; simpl.
  - repeat constructor.
  - destruct (decide (date m ≤ date x)) as [Hle|Hgt].
    + simpl. constructor; [done|]. by constructor.
    + simpl in Hs. apply Sorted_inv in Hs as [Hs Hhd].
      simpl. constructor; [by apply IH|].
      destruct l as [|y l]; simpl.
      * constructor. lia.
      * destruct (decide (date m ≤ date y)); simpl; constructor.
        -- lia.
        -- by inversion Hhd.
Qed.

Lemma insert_by_date_dated d m l :
  matches_dated d (insert_by_date m l) = matches_dated d (m :: l).
Proof.
  unfold matches_dated. induction l as [|x l IH]; [done|].
  cbn [insert_by_date]. destruct (decide (date m ≤ date x)) as [|Hgt]; [done|].
  cbn [List.filter] in *. rewrite IH.
  destruct (bool_decide (date m = d)) eqn:Em; [|done].
  apply bool_decide_eq_true in Em.
  rewrite (bool_decide_eq_false_2 (date x = d)) by lia. done.
Qed.

Lemma sort_by_date_facts (l : list H2HMatch) :
  Sorted Z.le (map date (sort_by_date l)) ∧
  Permutation (sort_by_date l) l ∧
  ∀ d, matches_dated d (sort_by_date l) = matches_dated d l.
Proof.
  unfold sort_by_date. induction l as [|m l (IH1 & IH2 & IH3)]; simpl.
  - split; [constructor|]. split; done.
  - split; [by apply insert_by_date_sorted|]. split.
    + rewrite insert_by_date_perm. by constructor.
    + intros d. rewrite insert_by_date_dated. unfold matches_dated in *.
      cbn [List.filter]. by rewrite IH3.
Qed.

(** X5. [sort_by_date] returns the matches it was given, ordered by date,
    and is stable: the matches of one date keep the order they had. *)
Theorem sort_by_date_stable_sort (l : list H2HMatch) :
  Sorted Z.le (map date (sort_by_date l)) ∧
  Permutation (sort_by_date l) l ∧
  ∀ d, matches_dated d (sort_by_date l) = matches_dated d l.
Proof. exact (sort_by_date_facts l). Qed.

(** The dictionary the indexing loop builds from [acc]. *)
Lemma index_matches_lookup ms acc key :
  fold_left index_match ms acc !! key =
  match matches_of_key key ms with
  | [] => acc !! key
  | found => Some (default [] (acc !! key) ++ found)
  end.
Proof.
  revert acc. induction ms as [|m ms IH]; intros acc; [done|].
  cbn [fold_left]. rewrite IH. unfold matches_of_key. cbn [List.filter].
  unfold index_match. fold (pair_key_of m).
  destruct (bool_decide (pair_key_of m = key)) eqn:E.
  - apply bool_decide_eq_true in E. rewrite E, lookup_insert_eq.
    cbn [default]. destruct (List.filter _ ms); [done|].
    unfold id. by rewrite <- app_assoc.
  - apply bool_decide_eq_false in E. by rewrite lookup_insert_ne.
Qed.

Lemma pair_map_lookup (rows : list Canon.t) (key : string) :
  build_pair_map rows !! key =
  match matches_of_key key (omap h2h_match rows) with
  | [] => None
  | found => Some (sort_by_date found)
  end.
Proof.
  unfold build_pair_map. rewrite lookup_fmap, index_matches_lookup.
  rewrite lookup_empty. by destruct (matches_of_key key _).
Qed.

(** X6. The pair index groups the matches with full-time goals by pair
    key: a key without such a match is absent, and any other key holds
    exactly its matches, sorted by date with ties in input order. *)
Theorem build_pair_map_lookup (rows : list Canon.t) (key : string) :
  build_pair_map rows !! key =
  match matches_of_key key (omap h2h_match rows) with
  | [] => None
  | found => Some (sort_by_date found)
  end.
Proof. exact (pair_map_lookup rows key). Qed.

Lemma build_pair_map_history rows key history :
  build_pair_map rows !! key = Some history →
  Sorted Z.le (map date history) ∧
  ∀ m, m ∈ history →
       pair_key_of m = key ∧ m ∈ omap h2h_match rows.
Proof.
  rewrite pair_map_lookup.
  destruct (matches_of_key key (omap h2h_match rows)) as [|m0 found] eqn:E;
    [done|].
  intros [= <-].
  destruct (sort_by_date_facts (m0 :: found)) as (Hs & Hp & _).
  split; [done|]. intros m Hm. rewrite Hp, <- E in Hm.
  apply list_elem_of_In, List.filter_In in Hm as [Hin Hk].
  apply bool_decide_eq_true in Hk. split; [done|by apply list_elem_of_In].
Qed.

(** X7. Causality of the whole pipeline: whatever the raw table, every
    match [main] aggregates for a fixture, in either variant, comes from a
    raw row of a resolved league with both full-time goals, is filed under
    the fixture's pair key, and was played on a calendar day strictly
    before the fixture's date. *)
Theorem main_h2h_causality mappings (raw : list Raw.t) (m : MergedRow)
    (venue_only : bool) (x : H2HMatch) :
  x ∈ h2h_selected_of_row (build_pair_map (canonical_rows mappings raw))
        venue_only m →
  day_of (date x) < Feature.date m.1 ∧
  pair_key_of x
  = build_pair_key (Feature.homeTeam m.1) (Feature.awayTeam m.1) ∧
  ∃ c, c ∈ canonical_rows mappings raw ∧ h2h_match c = Some x ∧
       Raw.FTHome (Canon.row c) = Some (home_goals x) ∧
       Raw.FTAway (Canon.row c) = Some (away_goals x) ∧
       is_Some (resolve_league_id (Raw.Division (Canon.row c))).
Proof.
  unfold h2h_selected_of_row. intros Hx.
  destruct (build_pair_map (canonical_rows mappings raw) !!
              build_pair_key (Feature.homeTeam m.1) (Feature.awayTeam m.1))
    as [history|] eqn:Hh; cbn [default] in Hx.
  2: { by apply elem_of_nil in Hx. }
  destruct (build_pair_map_history _ _ _ Hh) as [Hs Hall].
  assert (date x < to_datetime (Feature.date m.1)) as Hdate.
  { destruct (h2h_selected_lookup _ _ _ _ _ _ _ Hx) as (idx & Hidx & Hl).
    destruct (bisect_left_spec _ (to_datetime (Feature.date m.1)) Hs)
      as [Hbelow _].
    apply (Hbelow idx); [done|]. by apply lookup_map_date. }
  destruct (Hall x (h2h_selected_elem _ _ _ _ _ _ _ Hx)) as [Hkey Hin].
  split.
  { unfold to_datetime in Hdate. unfold day_of.
    apply Z.div_lt_upper_bound; lia. }
  split; [done|].
  apply list_elem_of_omap in Hin as (c & Hc & Hm).
  exists c. split; [done|]. split; [done|].
  pose proof (canonical_rows_resolved mappings raw) as Hres.
  rewrite List.Forall_forall in Hres.
  destruct (Hres c (proj1 (list_elem_of_In _ _) Hc)) as [_ Hl].
  unfold h2h_match in Hm.
  destruct (Raw.FTHome (Canon.row c)) as [hg|]; [|done].
  destruct (Raw.FTAway (Canon.row c)) as [ag|]; [|done].
  injection Hm as <-. cbn [home_goals away_goals]. rewrite Hl. eauto.
Qed.

Lemma main_h2h_causality_witness :
  let m : MergedRow :=
    (Feature.mk (days_from_civil 2021 3 1) 39 "Chelsea" "Arsenal"
       (Some 0) (Some 0) [], None) in
  let x := mkH2HMatch (timestamp_ymd 2021 1 1 + 54000) "Arsenal" "Chelsea"
             2 1 in
  x ∈ h2h_selected_of_row
        (build_pair_map (canonical_rows demo_mappings [demo_raw_row]))
        false m ∧
  day_of (date x) < Feature.date m.1.
Proof.
  intros m x.
  assert (x ∈ h2h_selected_of_row
                (build_pair_map (canonical_rows demo_mappings [demo_raw_row]))
                false m) as Hx.
  { apply list_elem_of_In. vm_compute. left. reflexivity. }
  split; [exact Hx|].
  exact (proj1 (main_h2h_causality demo_mappings [demo_raw_row] m false x
                  Hx)).
Defined.

(** ** Shape of normalised names and labels *)

Section NormalFormFacts.
Import PyStr.

Local Ltac each_char c := destruct c as [[] [] [] [] [] [] [] []].

Lemma canon_fixed_clean c :
  canon_ch c = c → isspace c = false →
  isalnum c = true ∧ lower_ch c = c ∧ unaccent_ch c = c.
Proof.
  each_char c; intros H1 H2; vm_compute in H1, H2 |- *;
    try discriminate; auto.
Qed.

Lemma lower_ch_idem c : lower_ch (lower_ch c) = lower_ch c.
Proof. each_char c; vm_compute; reflexivity. Qed.

Lemma list_ascii_of_string_app (x y : string) :
  list_ascii_of_string (x +:+ y)
  = list_ascii_of_string x ++ list_ascii_of_string y.
Proof. induction x as [|c x IH]; simpl; [done|]. by rewrite IH. Qed.

Lemma lstrip_blank pad s :
  Forall (fun c => isspace c = true) pad → lstrip (pad ++ s) = lstrip s.
Proof. induction 1 as [|c pad Hc _ IH]; simpl; [done|]. by rewrite Hc. Qed.

Lemma lstrip_all_blank pad :
  Forall (fun c => isspace c = true) pad → lstrip pad = [].
Proof. induction 1 as [|c pad Hc _ IH]; simpl; [done|]. by rewrite Hc. Qed.

Lemma strip_blank pad1 pad2 s :
  Forall (fun c => isspace c = true) pad1 →
  Forall (fun c => isspace c = true) pad2 →
  strip (pad1 ++ s ++ pad2) = strip s.
Proof.
  intros H1 H2. unfold strip, rstrip. rewrite (lstrip_blank pad1) by done.
  f_equal.
  assert (∀ t, lstrip (rev (t ++ pad2)) = lstrip (rev t)) as Hr.
  { intros t. rewrite rev_app_distr. apply lstrip_blank.
    apply List.Forall_forall. intros c Hc%in_rev.
    rewrite List.Forall_forall in H2. by apply H2. }
  induction s as [|c s IH].
  - rewrite app_nil_l, (lstrip_all_blank pad2) by done. done.
  - rewrite <- app_comm_cons. cbn [lstrip].
    destruct (isspace c); [exact IH|]. apply (Hr (c :: s)).
Qed.

Lemma lower_strip_case l l' :
  Forall2 (fun c d => lower_ch c = lower_ch d) l l' →
  lower (strip l) = lower (strip l').
Proof.
  assert (∀ a b, Forall2 (fun c d => lower_ch c = lower_ch d) a b →
                 Forall2 (fun c d => lower_ch c = lower_ch d)
                   (lstrip a) (lstrip b)) as Hl.
  { induction 1 as [|c d a b Hcd Hab IH]; simpl; [constructor|].
    rewrite <- (isspace_lower_ch c), Hcd, isspace_lower_ch.
    destruct (isspace d); [done|by constructor]. }
  intros H. unfold strip, rstrip, lower.
  apply Hl, Forall2_rev_list, Hl, Forall2_rev_list in H.
  induction H as [|c d a b Hcd _ IH]; simpl; [done|]. by rewrite Hcd, IH.
Qed.

Lemma normalize_chars_clean raw :
  ∃ parts, normalize_chars raw = join [" "%char] parts ∧
           Forall clean_part parts.
Proof.
  exists (List.filter is_kept_part (split (map canon_ch (strip raw)))).
  pose proof (normalize_parts raw) as Hparts.
  split.
  - rewrite normalize_chars_eq. apply strip_tight, join_tight.
    eapply Forall_impl; [exact Hparts|]. by intros ? [].
  - apply List.Forall_forall. intros w Hw.
    pose proof Hw as Hkept. apply List.filter_In in Hkept as [_ Hkept].
    rewrite List.Forall_forall in Hparts.
    destruct (Hparts w Hw) as [[Hne Hsp] Hfix].
    split; [done|]. split.
    + apply List.Forall_forall. intros c Hc.
      rewrite List.Forall_forall in Hsp, Hfix.
      apply canon_fixed_clean; auto.
    + unfold is_kept_part in Hkept.
      apply andb_prop in Hkept as [_ Hstop].
      apply negb_true_iff, bool_decide_eq_false in Hstop. done.
Qed.

End NormalFormFacts.

(** X8. A normalised team name is a sequence of parts joined by single
    spaces; every part is non-empty, consists of letters and digits none of
    which is a capital or an accented letter of [REPLACEMENTS], and is not
    a stop word.  In particular the name has no leading, trailing or
    doubled space and no punctuation. *)
Theorem normalize_team_name_shape (raw : string) :
  ∃ parts : list (list ascii),
    list_ascii_of_string (normalize_team_name raw)
    = PyStr.join [" "%char] parts ∧
    Forall clean_part parts.
Proof.
  unfold normalize_team_name.
  rewrite list_ascii_of_string_of_list_ascii.
  apply normalize_chars_clean.
Qed.

(** X9. White space around a name does not matter to
    [normalize_team_name]. *)
Theorem normalize_team_name_padding (pad1 pad2 raw : string) :
  blank pad1 → blank pad2 →
  normalize_team_name (pad1 +:+ raw +:+ pad2) = normalize_team_name raw.
Proof.
  intros H1 H2. unfold normalize_team_name, normalize_chars.
  by rewrite !list_ascii_of_string_app, strip_blank.
Qed.

Lemma normalize_team_name_padding_witness :
  normalize_team_name ("  " +:+ "FC Porto" +:+ " ")
  = normalize_team_name "FC Porto".
Proof.
  apply (normalize_team_name_padding "  " " " "FC Porto");
    repeat constructor.
Defined.

(** X10. [resolve_league_id] ignores letter case and surrounding white
    space: every alias of [LEAGUE_NAME_MAP], written in any case and padded
    with any white space, resolves to the id the table gives it. *)
Theorem resolve_league_id_alias (alias raw pad1 pad2 : string) (id : Z) :
  LEAGUE_NAME_MAP !! alias = Some id →
  same_up_to_case raw alias → blank pad1 → blank pad2 →
  resolve_league_id (pad1 +:+ raw +:+ pad2) = Some id.
Proof.
  intros Hid Hcase H1 H2. unfold resolve_league_id.
  rewrite !list_ascii_of_string_app, strip_blank by done.
  rewrite (lower_strip_case _ _ Hcase).
  enough (string_of_list_ascii
            (PyStr.lower (PyStr.strip (list_ascii_of_string alias))) = alias)
    as -> by done.
  assert (map_Forall
            (fun (k : string) (_ : Z) =>
               string_of_list_ascii
                 (PyStr.lower (PyStr.strip (list_ascii_of_string k))) = k)
            LEAGUE_NAME_MAP) as Htable.
  { apply (bool_decide_unpack _). vm_compute. reflexivity. }
  exact (Htable alias id Hid).
Qed.

Lemma resolve_league_id_alias_witness :
  resolve_league_id ("  " +:+ "Premier LEAGUE" +:+ " ") = Some 39.
Proof.
  apply (resolve_league_id_alias "premier league" "Premier LEAGUE" "  " " ").
  - vm_compute. reflexivity.
  - repeat constructor.
  - repeat constructor.
  - repeat constructor.
Defined.

(** ** Derived targets of a written row *)

Lemma ou_line_threshold i line suffix t :
  ou_lines !! i = Some (line, suffix) →
  Qgt_bool (inject_Z t) line = bool_decide (Z.of_nat i < t).
Proof.
  assert (∀ n d k, (n < t * Z.pos d ↔ k < t) →
                   Qgt_bool (inject_Z t) (n # d) = bool_decide (k < t))
    as Hq.
  { intros n d k Hiff. unfold Qgt_bool, Qle_bool. cbn [Qnum Qden inject_Z].
    rewrite Z.mul_1_r.
    destruct (Z.leb_spec (t * Z.pos d) n).
    - by rewrite bool_decide_eq_false_2 by lia.
    - by rewrite bool_decide_eq_true_2 by lia. }
  do 6 (destruct i as [|i];
        [intros [= <- <-]; apply Hq; cbn [Z.of_nat]; lia|]).
  done.
Qed.

Section DerivedFacts.

Variable pair_map : gmap string (list H2HMatch).
Variable m : MergedRow.

Local Ltac column_value :=
  unfold output_row; rewrite get_col_assign_all; unfold assigned_columns;
  generalize (h2h_of_row pair_map false m) as overall;
  generalize (h2h_of_row pair_map true m) as venue;
  intros venue overall; destruct m as [f o];
  vm_compute; reflexivity.

Lemma totalGoals_column :
  get_col "totalGoals" (output_row pair_map m) = Some (num (totalGoals m)).
Proof. column_value. Qed.

Lemma btts_yes_column :
  get_col "btts_yes" (output_row pair_map m)
  = Some (flag (gt_nan (Feature.homeGoals m.1) 0
                && gt_nan (Feature.awayGoals m.1) 0)).
Proof. column_value. Qed.

Lemma clean_sheet_columns :
  get_col "clean_sheet_home" (output_row pair_map m)
  = Some (flag (eq_nan (Feature.awayGoals m.1) 0)) ∧
  get_col "clean_sheet_away" (output_row pair_map m)
  = Some (flag (eq_nan (Feature.homeGoals m.1) 0)).
Proof. split; column_value. Qed.

Lemma ou_over_column i line suffix :
  ou_lines !! i = Some (line, suffix) →
  get_col ("ou_over_" +:+ suffix) (output_row pair_map m)
  = Some (flag (gt_nan (totalGoals m) line)).
Proof.
  do 6 (destruct i as [|i]; [intros [= <- <-]; column_value|]). done.
Qed.

Lemma half_goal_columns :
  get_col "fh_goals_total" (output_row pair_map m)
  = Some (num (fh_goals_total m)) ∧
  get_col "sh_goals_total" (output_row pair_map m)
  = Some (num (sub_nan (totalGoals m) (fh_goals_total m))).
Proof. split; column_value. Qed.

Lemma card_columns :
  get_col "home_cards" (output_row pair_map m) = Some (num (home_cards m)) ∧
  get_col "away_cards" (output_row pair_map m) = Some (num (away_cards m)) ∧
  get_col "total_cards" (output_row pair_map m)
  = Some (num (total_cards m)).
Proof. repeat split; column_value. Qed.

Lemma corner_columns :
  get_col "home_corners" (output_row pair_map m)
  = Some (num (outcome_field Raw.HomeCorners m.2)) ∧
  get_col "away_corners" (output_row pair_map m)
  = Some (num (outcome_field Raw.AwayCorners m.2)) ∧
  get_col "total_corners" (output_row pair_map m)
  = Some (num (total_corners m)).
Proof. repeat split; column_value. Qed.

Lemma flags_without_goals :
  totalGoals m = None →
  forallb (fun name => is_zero_flag (get_col name (output_row pair_map m)))
    total_goal_flags = true.
Proof.
  intros Hnone. unfold total_goal_flags. cbn [app forallb].
  rewrite btts_yes_column.
  assert (gt_nan (Feature.homeGoals m.1) 0
          && gt_nan (Feature.awayGoals m.1) 0 = false) as ->.
  { unfold totalGoals in Hnone.
    destruct (Feature.homeGoals m.1), (Feature.awayGoals m.1);
      try discriminate Hnone; cbn [gt_nan]; by rewrite ?andb_false_r. }
  cbn [flag is_zero_flag andb map app forallb ou_lines total_ranges].
  unfold output_row. rewrite !get_col_assign_all.
  revert Hnone. unfold assigned_columns, totalGoals.
  generalize (h2h_of_row pair_map false m) as overall.
  generalize (h2h_of_row pair_map true m) as venue.
  intros venue overall. destruct m as [f o]. cbn [fst snd].
  destruct f as [d l h a hg ag extra].
  cbn [Feature.homeGoals Feature.awayGoals]. intros Hnone.
  destruct hg as [hg|], ag as [ag|]; try discriminate Hnone;
    vm_compute; reflexivity.
Qed.

Lemma assigned_names_eq :
  map fst (assigned_columns pair_map m) = assigned_names.
Proof.
  unfold assigned_columns.
  generalize (h2h_of_row pair_map false m) as overall.
  generalize (h2h_of_row pair_map true m) as venue.
  intros venue overall. destruct m as [f o]. vm_compute. reflexivity.
Qed.

End DerivedFacts.

Lemma is_zero_flag_true c : is_zero_flag c = true → c = Some (VInt 0).
Proof. destruct c as [[[| |]| | | |]|]; simpl; congruence. Qed.

Lemma num_VInt x z : num x = VInt z → x = Some z.
Proof. destruct x; simpl; congruence. Qed.

Lemma gt_nan_zero x : gt_nan x 0 = true → ∃ z, x = Some z ∧ 0 < z.
Proof.
  destruct x as [z|]; [|done]. intros H. exists z. split; [done|].
  unfold gt_nan, Qgt_bool, Qle_bool in H. cbn [Qnum Qden inject_Z] in H.
  apply negb_true_iff, Z.leb_gt in H. lia.
Qed.

(** X11. A fixture without final goals is not left unlabelled: the total
    and the second-half goals are null, but both-teams-to-score, every
    over/under line and every range of the total are written as 0. *)
Theorem targets_without_final_goals pair_map (m : MergedRow) name :
  Feature.homeGoals m.1 = None ∨ Feature.awayGoals m.1 = None →
  name ∈ total_goal_flags →
  get_col "totalGoals" (output_row pair_map m) = Some VNull ∧
  get_col "sh_goals_total" (output_row pair_map m) = Some VNull ∧
  get_col name (output_row pair_map m) = Some (VInt 0).
Proof.
  intros Hmissing Hname.
  assert (totalGoals m = None) as Htotal.
  { unfold totalGoals.
    destruct Hmissing as [-> | ->]; [done|].
    by destruct (Feature.homeGoals m.1). }
  destruct (half_goal_columns pair_map m) as [_ Hsh].
  rewrite totalGoals_column, Hsh, Htotal. split; [done|]. split; [done|].
  pose proof (flags_without_goals pair_map m Htotal) as Hall.
  rewrite forallb_forall in Hall.
  apply is_zero_flag_true, Hall. by apply list_elem_of_In.
Qed.

Lemma targets_without_final_goals_witness :
  let m : MergedRow :=
    (Feature.mk (days_from_civil 2022 1 1) 39 "TeamA" "TeamB" None (Some 1)
       [], None) in
  get_col "totalGoals" (output_row ∅ m) = Some VNull ∧
  get_col "sh_goals_total" (output_row ∅ m) = Some VNull ∧
  get_col "ou_over_0_5" (output_row ∅ m) = Some (VInt 0).
Proof.
  intros m.
  apply (targets_without_final_goals ∅ m "ou_over_0_5").
  - left. reflexivity.
  - apply list_elem_of_In. vm_compute. right. left. reflexivity.
Defined.

(** X12. For a row with final goals, the over/under column of line
    k + 0.5 is 1 exactly when the total is at least k + 1; in particular
    [ou_over_2_5] is 1 exactly when the total exceeds 2.5. *)
Theorem ou_over_threshold pair_map (m : MergedRow) t i line suffix :
  get_col "totalGoals" (output_row pair_map m) = Some (VInt t) →
  ou_lines !! i = Some (line, suffix) →
  get_col ("ou_over_" +:+ suffix) (output_row pair_map m)
  = Some (VInt (if bool_decide (Z.of_nat i + 1 ≤ t) then 1 else 0)).
Proof.
  rewrite totalGoals_column. intros [= Ht%num_VInt] Hline.
  rewrite (ou_over_column pair_map m i line suffix Hline), Ht.
  cbn [gt_nan]. rewrite (ou_line_threshold i line suffix t Hline).
  unfold flag. do 2 f_equal.
  rewrite (bool_decide_ext (Z.of_nat i < t) (Z.of_nat i + 1 ≤ t)) by lia.
  done.
Qed.

Lemma ou_over_threshold_witness :
  get_col "ou_over_2_5" (output_row ∅ (hd (Feature.mk 0 0 "" "" None None [])
                                         demo_features, None))
  = Some (VInt 1).
Proof.
  apply (ou_over_threshold ∅ _ 3 2%nat 2.5%Q "2_5");
    vm_compute; reflexivity.
Defined.

(** X13. The over/under columns are monotone: a row labelled over a line
    is labelled over every lower line, with or without final goals. *)
Theorem ou_over_monotone pair_map (m : MergedRow) i j line_i suffix_i
    line_j suffix_j :
  (i ≤ j)%nat →
  ou_lines !! i = Some (line_i, suffix_i) →
  ou_lines !! j = Some (line_j, suffix_j) →
  get_col ("ou_over_" +:+ suffix_j) (output_row pair_map m)
  = Some (VInt 1) →
  get_col ("ou_over_" +:+ suffix_i) (output_row pair_map m)
  = Some (VInt 1).
Proof.
  intros Hij Hi Hj.
  rewrite (ou_over_column pair_map m i _ _ Hi),
    (ou_over_column pair_map m j _ _ Hj).
  destruct (totalGoals m) as [t|]; cbn [gt_nan]; [|done].
  rewrite (ou_line_threshold i _ _ t Hi), (ou_line_threshold j _ _ t Hj).
  unfold flag. repeat case_bool_decide; try done; lia.
Qed.

Lemma ou_over_monotone_witness :
  get_col "ou_over_0_5" (output_row ∅ (hd (Feature.mk 0 0 "" "" None None [])
                                         demo_features, None))
  = Some (VInt 1).
Proof.
  apply (ou_over_monotone ∅ _ 0%nat 2%nat 0.5%Q "0_5" 2.5%Q "2_5");
    [lia|vm_compute; reflexivity..].
Defined.

(** X14. A row labelled both-teams-to-score has no clean sheet on either
    side and is over 1.5 goals. *)
Theorem btts_yes_consistent pair_map (m : MergedRow) :
  get_col "btts_yes" (output_row pair_map m) = Some (VInt 1) →
  get_col "clean_sheet_home" (output_row pair_map m) = Some (VInt 0) ∧
  get_col "clean_sheet_away" (output_row pair_map m) = Some (VInt 0) ∧
  get_col "ou_over_1_5" (output_row pair_map m) = Some (VInt 1).
Proof.
  rewrite btts_yes_column.
  destruct (clean_sheet_columns pair_map m) as [-> ->].
  pose proof (ou_over_column pair_map m 1%nat 1.5%Q "1_5" eq_refl) as Hou.
  change ("ou_over_" +:+ "1_5") with "ou_over_1_5"%string in Hou.
  rewrite Hou. clear Hou. unfold totalGoals.
  destruct (gt_nan (Feature.homeGoals m.1) 0) eqn:Eh; [|done].
  destruct (gt_nan (Feature.awayGoals m.1) 0) eqn:Ea; [|done].
  apply gt_nan_zero in Eh as (h & -> & Hh).
  apply gt_nan_zero in Ea as (a & -> & Ha). intros _.
  cbn [add_nan gt_nan eq_nan].
  rewrite (ou_line_threshold 1%nat 1.5%Q "1_5" (h + a) eq_refl).
  rewrite !bool_decide_eq_false_2 by lia.
  rewrite bool_decide_eq_true_2 by lia. done.
Qed.

Lemma btts_yes_consistent_witness :
  get_col "ou_over_1_5" (output_row ∅ (hd (Feature.mk 0 0 "" "" None None [])
                                         demo_features, None))
  = Some (VInt 1).
Proof.
  refine (proj2 (proj2 (btts_yes_consistent ∅ _ _))).
  vm_compute. reflexivity.
Defined.

(** X15. Second-half goals are the total minus the first-half goals when
    both are known, and null as soon as one of them is. *)
Theorem second_half_goals pair_map (m : MergedRow) :
  get_col "sh_goals_total" (output_row pair_map m) =
  match get_col "totalGoals" (output_row pair_map m),
        get_col "fh_goals_total" (output_row pair_map m) with
  | Some (VInt t), Some (VInt f) => Some (VInt (t - f))
  | _, _ => Some VNull
  end.
Proof.
  destruct (half_goal_columns pair_map m) as [-> ->].
  rewrite totalGoals_column.
  by destruct (totalGoals m), (fh_goals_total m).
Qed.

(** X16. Card and corner totals are the sum of the two sides when both
    are known, and null as soon as one side is. *)
Theorem total_cards_and_corners pair_map (m : MergedRow) :
  get_col "total_cards" (output_row pair_map m) =
  match get_col "home_cards" (output_row pair_map m),
        get_col "away_cards" (output_row pair_map m) with
  | Some (VInt h), Some (VInt a) => Some (VInt (h + a))
  | _, _ => Some VNull
  end ∧
  get_col "total_corners" (output_row pair_map m) =
  match get_col "home_corners" (output_row pair_map m),
        get_col "away_corners" (output_row pair_map m) with
  | Some (VInt h), Some (VInt a) => Some (VInt (h + a))
  | _, _ => Some VNull
  end.
Proof.
  destruct (card_columns pair_map m) as (-> & -> & ->).
  destruct (corner_columns pair_map m) as (-> & -> & ->).
  unfold total_cards, total_corners. split.
  - by destruct (home_cards m), (away_cards m).
  - by destruct (outcome_field Raw.HomeCorners m.2),
         (outcome_field Raw.AwayCorners m.2).
Qed.

Lemma get_col_None n (r : Row) : n ∉ map fst r → get_col n r = None.
Proof.
  induction r as [|[n' v] r IH]; simpl; [done|].
  intros Hn. apply not_elem_of_cons in Hn as [Hne Hn].
  destruct (String.eqb n' n) eqn:E; [|by apply IH].
  apply String.eqb_eq in E. congruence.
Qed.

Lemma get_col_is_Some n (r : Row) : n ∈ map fst r → is_Some (get_col n r).
Proof.
  induction r as [|[n' v] r IH]; simpl.
  - by intros ?%elem_of_nil.
  - intros [<- | Hn]%elem_of_cons.
    + rewrite String.eqb_refl. eauto.
    + destruct (String.eqb n' n); eauto.
Qed.

(** X17. [main] only adds columns: every column it assigns is present in
    every written row, and any other column of the merged frame, the
    further columns of the feature table among them, is written with the
    value it had. *)
Theorem unassigned_columns_pass_through pair_map (m : MergedRow) name :
  if bool_decide (name ∈ assigned_names)
  then is_Some (get_col name (output_row pair_map m))
  else get_col name (output_row pair_map m) = get_col name (merged_columns m).
Proof.
  unfold output_row. rewrite get_col_assign_all.
  rewrite <- (assigned_names_eq pair_map m).
  case_bool_decide as Hname.
  - assert (is_Some (get_col name (rev (assigned_columns pair_map m))))
      as [v ->]; [|eauto].
    apply get_col_is_Some. rewrite map_rev.
    by apply list_elem_of_In, in_rev, list_elem_of_In in Hname.
  - rewrite get_col_None; [done|]. rewrite map_rev. intros Hin.
    apply Hname. by apply list_elem_of_In, in_rev, list_elem_of_In.
Qed.

(** ** Training stage *)

Section TrainFacts.
Import Train.

Lemma drop_column_elem c col columns :
  c ∈ drop_column col columns ↔ c ∈ columns ∧ c ≠ col.
Proof.
  unfold drop_column. rewrite !list_elem_of_In, List.filter_In.
  rewrite negb_true_iff, String.eqb_neq. done.
Qed.

Lemma drop_listed_elem c cols columns :
  c ∈ fold_left
        (fun columns col =>
           if bool_decide (col ∈ columns) then drop_column col columns
           else columns) cols columns
  ↔ c ∈ columns ∧ c ∉ cols.
Proof.
  revert columns. induction cols as [|col cols IH]; intros columns.
  - cbn [fold_left]. split; [intros ?; split; [done|]|by intros [? _]].
    by intros ?%elem_of_nil.
  - cbn [fold_left]. rewrite IH, not_elem_of_cons. case_bool_decide as Hin.
    + rewrite drop_column_elem. tauto.
    + split; [|tauto]. intros [Hc Hn]. split; [done|]. split; [|done].
      congruence.
Qed.

Lemma drop_prefixed_elem c cols columns :
  c ∈ fold_left
        (fun columns col =>
           if has_label_prefix col then drop_column col columns else columns)
        cols columns
  ↔ c ∈ columns ∧ (c ∈ cols → has_label_prefix c = false).
Proof.
  revert columns. induction cols as [|col cols IH]; intros columns.
  - cbn [fold_left]. split; [intros ?; split; [done|]|by intros [? _]].
    by intros ?%elem_of_nil.
  - cbn [fold_left]. rewrite IH.
    destruct (has_label_prefix col) eqn:Hp.
    + rewrite drop_column_elem. split.
      * intros [[Hc Hne] Hrest]. split; [done|].
        intros [-> | Hin]%elem_of_cons; [done|auto].
      * intros [Hc Hrest]. split; [split; [done|]|].
        -- intros ->. specialize (Hrest ltac:(left)). congruence.
        -- intros Hin. apply Hrest. by right.
    + split.
      * intros [Hc Hrest]. split; [done|].
        intros [-> | Hin]%elem_of_cons; [done|auto].
      * intros [Hc Hrest]. split; [done|]. intros Hin. apply Hrest. by right.
Qed.

Lemma prepare_features_elem df target_columns c :
  c ∈ prepare_features df target_columns ↔
  ((c, true) ∈ df) ∧ (c ∉ drop_cols) ∧ (c ∉ target_columns) ∧
  has_label_prefix c = false.
Proof.
  unfold prepare_features.
  rewrite drop_prefixed_elem, !drop_listed_elem, not_elem_of_app.
  assert (c ∈ map fst (List.filter snd df) ↔ (c, true) ∈ df) as ->.
  { rewrite list_elem_of_In, in_map_iff. split.
    - intros ([c' b] & <- & [Hin Hb]%List.filter_In). simpl in Hb.
      subst b. by apply list_elem_of_In.
    - intros Hin. exists (c, true). split; [done|].
      apply List.filter_In. split; [by apply list_elem_of_In|done]. }
  tauto.
Qed.

End TrainFacts.

(** X18. [prepare_features] returns exactly the numeric columns of the
    frame that are neither in its list of outcome columns nor a target
    column nor carry one of the five label prefixes. *)
Theorem prepare_features_columns (df : list (string * bool))
    (target_columns : list string) (col : string) :
  col ∈ Train.prepare_features df target_columns ↔
  ((col, true) ∈ df) ∧ (col ∉ Train.drop_cols) ∧ (col ∉ target_columns) ∧
  Train.has_label_prefix col = false.
Proof. apply prepare_features_elem. Qed.

(** X19. No outcome reaches the model: of the columns create-targets
    writes beside the feature columns it is given (final goals, raw
    outcome columns, derived targets, H2H snapshots), the only ones
    [prepare_features] lets through with the targets of all markets are
    the [h2h_] snapshot columns, which are computed from earlier matches. *)
Theorem prepare_features_no_outcome (df : list (string * bool)) (col : string) :
  col ∈ Train.prepare_features df
          (Train.target_columns_of (Train.add_range_markets Train.MARKETS)) →
  col ∈ outcome_and_target_names →
  String.prefix "h2h_" col = true.
Proof.
  intros (_ & Hdrop & Htarget & Hprefix)%prepare_features_elem Hcol.
  assert (Forall
            (fun c =>
               c ∈ Train.drop_cols ∨
               c ∈ Train.target_columns_of
                     (Train.add_range_markets Train.MARKETS) ∨
               Train.has_label_prefix c = true ∨
               String.prefix "h2h_" c = true)
            outcome_and_target_names) as Hall.
  { apply (bool_decide_unpack _). vm_compute. reflexivity. }
  rewrite List.Forall_forall in Hall.
  destruct (Hall col (proj1 (list_elem_of_In _ _) Hcol))
    as [? | [? | [? | ?]]]; [done|done|congruence|done].
Qed.

Lemma prepare_features_no_outcome_witness :
  String.prefix "h2h_" "h2h_overall_matches" = true.
Proof.
  apply (prepare_features_no_outcome
           [("h2h_overall_matches"%string, true);
            ("totalGoals"%string, true)]).
  - apply list_elem_of_In. vm_compute. left. reflexivity.
  - apply (bool_decide_unpack _). vm_compute. reflexivity.
Defined.

(** X20. Every target column the training stage asks for, the range
    markets included, is a column create-targets assigns, except
    [result]. *)
Theorem market_targets_assigned (key target : string)
    (type : Train.market_type) :
  (key, (target, type)) ∈ Train.add_range_markets Train.MARKETS →
  (target = "result"%string) ∨ (target ∈ assigned_names).
Proof.
  intros Hin.
  assert (Forall
            (fun '(_, (t, _)) =>
               (t = "result"%string) ∨ (t ∈ assigned_names))
            (Train.add_range_markets Train.MARKETS)) as Hall.
  { vm_compute Train.add_range_markets.
    repeat (constructor;
            [first [left; reflexivity
                   | right; apply (bool_decide_unpack _); vm_compute;
                     reflexivity]|]).
    constructor. }
  rewrite List.Forall_forall in Hall.
  exact (Hall _ (proj1 (list_elem_of_In _ _) Hin)).
Qed.

Lemma market_targets_assigned_witness :
  ("total_range_1_2"%string = "result"%string) ∨
  ("total_range_1_2"%string ∈ assigned_names).
Proof.
  apply (market_targets_assigned "total_range_1_2" "total_range_1_2"
           Train.binary).
  apply list_elem_of_In. vm_compute. do 19 right. left. reflexivity.
Defined.

(** X21. With [train_end < val_season < test_start] the three splits are
    ordered in time: every training row is of an earlier season than
    every validation row, and every validation row of an earlier season
    than every test row; no row is in two splits. *)
Theorem split_by_season_ordered {row} (season : row → Z) (df : list row)
    (train_end val_season test_start : Z) (a b c : row) :
  train_end < val_season < test_start →
  a ∈ (Train.split_by_season season df train_end val_season test_start).1.1 →
  b ∈ (Train.split_by_season season df train_end val_season test_start).1.2 →
  c ∈ (Train.split_by_season season df train_end val_season test_start).2 →
  season a < season b < season c.
Proof.
  intros Horder. cbn [Train.split_by_season fst snd].
  rewrite !list_elem_of_In, !List.filter_In.
  intros [_ Ha%bool_decide_eq_true] [_ Hb%bool_decide_eq_true]
         [_ Hc%bool_decide_eq_true].
  lia.
Qed.

Lemma split_by_season_ordered_witness :
  (2021 : Z) < 2023 < 2024.
Proof.
  apply (split_by_season_ordered (fun z : Z => z) [2021; 2023; 2024]
           2022 2023 2024 2021 2023 2024);
    [lia|apply list_elem_of_In; vm_compute; auto..].
Defined.

(** ** Model export *)

Section ExportFacts.
Import ExportJson.

Lemma lookup_field_keep (key key' : string)
    (fields : list (string * scalar)) :
  lookup_field key (keep key' fields) =
  if String.eqb key' key then lookup_field key' fields else None.
Proof.
  unfold keep. destruct (lookup_field key' fields) as [v|] eqn:E; simpl.
  - by destruct (String.eqb key' key).
  - by destruct (String.eqb key' key).
Qed.

Lemma lookup_field_app (key : string) (f1 f2 : list (string * scalar)) :
  lookup_field key (f1 ++ f2) =
  match lookup_field key f1 with
  | Some v => Some v
  | None => lookup_field key f2
  end.
Proof.
  induction f1 as [|[k v] f1 IH]; simpl; [done|].
  by destruct (String.eqb k key).
Qed.

(** Reading a key of a minified split node. *)
Lemma lookup_field_kept (key : string) (fields : list (string * scalar)) :
  lookup_field key (keep "split_feature" fields ++ keep "threshold" fields
                    ++ keep "default_left" fields) =
  if bool_decide (key ∈ KEEP_SPLIT_SCALARS) then lookup_field key fields
  else None.
Proof.
  rewrite !lookup_field_app, !lookup_field_keep.
  destruct (String.eqb "split_feature" key) eqn:E1.
  { apply String.eqb_eq in E1 as <-.
    rewrite bool_decide_eq_true_2 by (by left).
    by destruct (lookup_field "split_feature" fields). }
  destruct (String.eqb "threshold" key) eqn:E2.
  { apply String.eqb_eq in E2 as <-.
    rewrite bool_decide_eq_true_2 by (right; by left).
    by destruct (lookup_field "threshold" fields). }
  destruct (String.eqb "default_left" key) eqn:E3.
  { apply String.eqb_eq in E3 as <-.
    rewrite bool_decide_eq_true_2 by (right; right; by left).
    done. }
  apply String.eqb_neq in E1, E2, E3.
  rewrite bool_decide_eq_false_2; [done|].
  unfold KEEP_SPLIT_SCALARS.
  rewrite !elem_of_cons, elem_of_nil.
  intros [? | [? | [? | []]]]; congruence.
Qed.

Lemma keep_keep (key : string) (fields : list (string * scalar)) :
  keep key (keep "split_feature" fields ++ keep "threshold" fields
            ++ keep "default_left" fields) =
  if bool_decide (key ∈ KEEP_SPLIT_SCALARS) then keep key fields else [].
Proof. unfold keep at 1. rewrite lookup_field_kept. by case_bool_decide. Qed.

Lemma keys_of_kept (fields : list (string * scalar)) :
  Forall (fun k => k ∈ KEEP_SPLIT_SCALARS)
    (map fst (keep "split_feature" fields ++ keep "threshold" fields
              ++ keep "default_left" fields)) ∧
  NoDup (map fst (keep "split_feature" fields ++ keep "threshold" fields
                  ++ keep "default_left" fields)).
Proof.
  unfold keep, KEEP_SPLIT_SCALARS.
  destruct (lookup_field "split_feature" fields),
    (lookup_field "threshold" fields), (lookup_field "default_left" fields);
    simpl; split;
    repeat (first [apply Forall_nil_2 | apply Forall_cons_2
                  | apply NoDup_nil_2 | apply NoDup_cons_2
                  | apply (bool_decide_unpack _); vm_compute; reflexivity]).
Qed.

Lemma minify_node_idem n : minify_node (minify_node n) = minify_node n.
Proof.
  induction n as [fields l r IHl IHr] using node_induction.
  cbn [minify_node].
  destruct (lookup_field "leaf_value" fields) as [v|] eqn:Eleaf.
  - reflexivity.
  - cbn [minify_node]. rewrite lookup_field_kept.
    rewrite bool_decide_eq_false_2.
    2: { apply (bool_decide_unpack _). vm_compute. reflexivity. }
    rewrite !keep_keep.
    rewrite !bool_decide_eq_true_2
      by (apply (bool_decide_unpack _); vm_compute; reflexivity).
    f_equal.
    + destruct l as [[c|]|]; cbn [on_child] in IHl; by rewrite ?IHl.
    + destruct r as [[c|]|]; cbn [on_child] in IHr; by rewrite ?IHr.
Qed.

Lemma minify_node_inference_only n : inference_only (minify_node n).
Proof.
  induction n as [fields l r IHl IHr] using node_induction.
  cbn [minify_node].
  destruct (lookup_field "leaf_value" fields) as [v|] eqn:Eleaf.
  - cbn [inference_only lookup_field]. rewrite String.eqb_refl. done.
  - cbn [inference_only]. rewrite lookup_field_kept.
    rewrite bool_decide_eq_false_2.
    2: { apply (bool_decide_unpack _). vm_compute. reflexivity. }
    destruct (keys_of_kept fields) as [Hkeys Hnodup].
    split; [done|]. split; [done|]. split.
    + by destruct l as [[c|]|].
    + by destruct r as [[c|]|].
Qed.

End ExportFacts.

(** X22. Minifying a tree twice is minifying it once. *)
Theorem minify_node_idempotent (n : ExportJson.node) :
  ExportJson.minify_node (ExportJson.minify_node n) = ExportJson.minify_node n.
Proof. apply minify_node_idem. Qed.

(** X23. A minified tree holds only what inference needs: every leaf is
    its [leaf_value] alone, without children, and every split node has no
    key besides [split_feature], [threshold], [default_left] and its
    children. *)
Theorem minify_node_keeps_inference_fields (n : ExportJson.node) :
  ExportJson.inference_only (ExportJson.minify_node n).
Proof. apply minify_node_inference_only. Qed.

(** X24. Minification changes no value it keeps: a leaf keeps its
    [leaf_value]; a split node keeps the values of [split_feature],
    [threshold] and [default_left] where it has them, and its children are
    the minified children. *)
Theorem minify_node_values fields left_child right_child key :
  match ExportJson.lookup_field "leaf_value" fields with
  | Some v =>
      ExportJson.minify_node (ExportJson.Node fields left_child right_child)
      = ExportJson.Node [("leaf_value"%string, v)] None None
  | None =>
      ∃ kept,
        ExportJson.minify_node (ExportJson.Node fields left_child right_child)
        = ExportJson.Node kept
            (option_map (option_map ExportJson.minify_node) left_child)
            (option_map (option_map ExportJson.minify_node) right_child) ∧
        ExportJson.lookup_field key kept =
        if bool_decide (key ∈ ExportJson.KEEP_SPLIT_SCALARS)
        then ExportJson.lookup_field key fields else None
  end.
Proof.
  cbn [ExportJson.minify_node].
  destruct (ExportJson.lookup_field "leaf_value" fields) as [v|]; [done|].
  eexists. split.
  - f_equal.
    + by destruct left_child as [[c|]|].
    + by destruct right_child as [[c|]|].
  - apply lookup_field_kept.
Qed.

(** X25. [minify_tree_info] keeps one entry per tree, in order, and
    minifying its result changes nothing. *)
Theorem minify_tree_info_stable (tree_info : list ExportJson.tree) :
  length (ExportJson.minify_tree_info tree_info) = length tree_info ∧
  ExportJson.minify_tree_info (ExportJson.minify_tree_info tree_info)
  = ExportJson.minify_tree_info tree_info.
Proof.
  unfold ExportJson.minify_tree_info. split; [apply length_map|].
  rewrite map_map. apply map_ext. intros t.
  unfold ExportJson.minify_tree.
  cbn [ExportJson.tree_fields ExportJson.tree_structure ExportJson.lookup_field].
  f_equal.
  destruct (ExportJson.tree_structure t) as [[n|]|];
    by rewrite ?minify_node_idem.
Qed.

(** ** Factor weights *)

Section WeightsFacts.
Import Weights.

Lemma group_importances_fold pairs (acc : gmap string Z) group :
  fold_left
    (fun grouped '(feature, importance) =>
       <[group_feature feature :=
           default 0 (grouped !! group_feature feature) + importance]>
         grouped) pairs acc !! group =
  match importances_of group pairs with
  | [] => acc !! group
  | found => Some (default 0 (acc !! group) + sum_list found)
  end.
Proof.
  revert acc. induction pairs as [|[feature importance] pairs IH];
    intros acc; [done|].
  cbn [fold_left]. rewrite IH. unfold importances_of.
  cbn [List.filter fst].
  destruct (bool_decide (group_feature feature = group)) eqn:E.
  - apply bool_decide_eq_true in E. rewrite E, lookup_insert_eq.
    cbn [default map snd sum_list fold_right].
    destruct (map snd (List.filter _ pairs)) as [|z l]; simpl; f_equal; lia.
  - apply bool_decide_eq_false in E. by rewrite lookup_insert_ne.
Qed.

End WeightsFacts.

(** X26. Every feature listed in a factor group is reported under that
    group, and every H2H snapshot column create-targets writes is reported
    under [h2h]. *)
Theorem group_feature_table (feature : string) :
  (∀ group members,
     (group, members) ∈ Weights.FACTOR_GROUPS → feature ∈ members →
     Weights.group_feature feature = group) ∧
  (feature ∈ assigned_names → String.prefix "h2h_" feature = true →
   Weights.group_feature feature = "h2h"%string).
Proof.
  split.
  - intros group members Hg Hf.
    assert (Forall
              (fun '(g, ms) =>
                 Forall (fun f => Weights.group_feature f = g) ms)
              Weights.FACTOR_GROUPS) as Hall.
    { apply (bool_decide_unpack _). vm_compute. reflexivity. }
    rewrite List.Forall_forall in Hall.
    specialize (Hall _ (proj1 (list_elem_of_In _ _) Hg)). cbn in Hall.
    rewrite List.Forall_forall in Hall.
    exact (Hall _ (proj1 (list_elem_of_In _ _) Hf)).
  - intros _ Hp. unfold Weights.group_feature. by rewrite Hp.
Qed.

Lemma group_feature_table_witness :
  Weights.group_feature "homeGF10" = "attackStrength"%string ∧
  Weights.group_feature "h2h_venue_matches" = "h2h"%string.
Proof.
  split.
  - apply (proj1 (group_feature_table "homeGF10") "attackStrength"
             ["homeGF10"; "awayGF10"]%string).
    + apply list_elem_of_In. vm_compute. right. left. reflexivity.
    + left.
  - apply (proj2 (group_feature_table "h2h_venue_matches")).
    + apply (bool_decide_unpack _). vm_compute. reflexivity.
    + reflexivity.
Defined.

(** X27. The grouped importances are, for every group, the sum of the
    importances of the features of that group; a group without a feature
    has no entry. *)
Theorem group_importances_lookup (feature_names : list string)
    (importances : list Z) (group : string) :
  Weights.group_importances feature_names importances !! group =
  match Weights.importances_of group (zip feature_names importances) with
  | [] => None
  | found => Some (Weights.sum_list found)
  end.
Proof.
  unfold Weights.group_importances.
  rewrite group_importances_fold, lookup_empty.
  by destruct (Weights.importances_of group _).
Qed.
